(** * go-ap/storage, package boltdb: the BoltDB storage adapter

  A shallow embedding of [boltdb/boltdb.go].  The adapter keeps
  ActivityStreams items in four buckets ([actors], [activities],
  [objects], [collections]) nested in one root bucket of a BoltDB file.

  Layout of the development:
  - [bytes]: Go byte strings, their order, [bytes.HasPrefix] and
    [strings.Contains];
  - [errors]: the error values the adapter builds;
  - [bolt]: the part of the key-value engine the adapter calls (nested
    buckets ordered by key, cursors, [Get], [Put], [View], [Update]);
  - [activitystreams], [jsonld], [storage]: what the adapter calls in the
    vocabulary package, the codec and the filter interface;
  - [boltdb]: the adapter itself, function by function;
  - [sample]: a vocabulary, a codec and stores to run the adapter on;
  - [query]: the notions the properties are stated with;
  - the properties of loads, collection loads, saves and identifier
    generation, and the adapter on concrete stores. *)

From Stdlib Require Import String Ascii List Bool NArith Sorted Lia.
Import ListNotations.
Set Warnings "-register-all".
Local Open Scope list_scope.
Local Open Scope string_scope.

(* ================================================================== *)
(** * Byte strings *)
(* ================================================================== *)

(** Go's [[]byte] and [string] are both sequences of bytes; the adapter
  converts freely between them, so one type stands for both. *)
Module bytes.

Definition t := string.

(** [bytes.HasPrefix(s, prefix)]. *)
Definition HasPrefix (s prefix : t) : bool := String.prefix prefix s.

(** [strings.Contains(s, substr)]: [substr] occurs somewhere in [s]. *)
Fixpoint Contains (s substr : t) : bool :=
  String.prefix substr s ||
  match s with
  | EmptyString => false
  | String _ s' => Contains s' substr
  end.

(** [bytes.Compare(a, b) < 0]: the order BoltDB keeps its keys in. *)
Definition lt (a b : t) : Prop := String.compare a b = Lt.
Definition ltb (a b : t) : bool := String.ltb a b.

(** [len(s)] as an unsigned number. *)
Definition len (s : t) : N := N.of_nat (String.length s).

End bytes.

(* ================================================================== *)
(** * Errors *)
(* ================================================================== *)

Module errors.

(** The error values that reach the adapter's callers.  [New] stands for an
    error made by a collaborator (the codec, the vocabulary package); the
    [Err...] constants are BoltDB's. *)
Inductive error : Type :=
| New (msg : string)
| Errorf (msg : string)                     (* errors.Errorf *)
| fmt_Errorf (msg : string)                 (* fmt.Errorf *)
| Annotatef (cause : error) (msg : string)  (* errors.Annotatef *)
| NotFoundf (msg : string)
| NotImplementedf (msg : string)
| ErrTxNotWritable
| ErrKeyRequired
| ErrKeyTooLarge
| ErrValueTooLarge
| ErrIncompatibleValue.

(** [err.Error()], used by the [%v] verb. *)
Fixpoint Error (e : error) : string :=
  match e with
  | New msg | Errorf msg | fmt_Errorf msg => msg
  | Annotatef cause msg => msg ++ ": " ++ Error cause
  | NotFoundf msg => msg
  | NotImplementedf msg => msg
  | ErrTxNotWritable => "tx not writable"
  | ErrKeyRequired => "key required"
  | ErrKeyTooLarge => "key too large"
  | ErrValueTooLarge => "value too large"
  | ErrIncompatibleValue => "incompatible value"
  end.

End errors.
Export errors.

(** A Go result pair [(x, err)] of which one half is meaningful: [ok x] when
    [err == nil], [fail err] otherwise. *)
Inductive result (A : Type) : Type :=
| ok (x : A)
| fail (err : error).
Arguments ok {A} x.
Arguments fail {A} err.

(* ================================================================== *)
(** * The key-value engine (github.com/boltdb/bolt) *)
(* ================================================================== *)

Module bolt.

(** A bucket maps keys to values or to nested buckets, and keeps its keys
    in byte order; a cursor walks them in that order.  A bucket is the
    list of its entries in cursor order. *)
Inductive node : Type :=
| value (v : bytes.t)
| nested (b : list (bytes.t * node)).

Definition Bucket := list (bytes.t * node).

(** The file: the bucket that holds the top-level buckets. *)
Definition DB := Bucket.

(** A transaction sees the file and knows whether it may write. *)
Record Tx := { tx_db : DB; tx_writable : bool }.

Definition MaxKeySize : N := 32768.
Definition MaxValueSize : N := 2147483646.     (* (1 << 31) - 2 *)

Definition keys (b : Bucket) : list bytes.t := map fst b.

(** The engine's invariant: keys strictly increasing, hence unique. *)
Definition sorted (b : Bucket) : Prop :=
  StronglySorted bytes.lt (keys b).

Fixpoint lookup (b : Bucket) (key : bytes.t) : option node :=
  match b with
  | [] => None
  | (k, n) :: b' => if String.eqb k key then Some n else lookup b' key
  end.

(** [tx.Bucket(name)] and [b.Bucket(name)]: [None] is Go's [nil], returned
    when the key is absent or holds a plain value. *)
Definition Bucket_of (b : Bucket) (name : bytes.t) : option Bucket :=
  match lookup b name with
  | Some (nested c) => Some c
  | _ => None
  end.

Definition Tx_Bucket (tx : Tx) (name : bytes.t) : option Bucket :=
  Bucket_of (tx_db tx) name.

(** [b.Get(key)]: [nil] when the key is absent or is a nested bucket. *)
Definition Get (b : Bucket) (key : bytes.t) : option bytes.t :=
  match lookup b key with
  | Some (value v) => Some v
  | _ => None
  end.

(** What a decoder sees of a possibly nil slice: its bytes. *)
Definition slice (v : option bytes.t) : bytes.t :=
  match v with Some s => s | None => "" end.

(** Ordered insertion, replacing the entry of an existing key. *)
Fixpoint insert (b : Bucket) (key : bytes.t) (n : node) : Bucket :=
  match b with
  | [] => [(key, n)]
  | (k, m) :: b' =>
      match String.compare key k with
      | Lt => (key, n) :: b
      | Eq => (key, n) :: b'
      | Gt => (k, m) :: insert b' key n
      end
  end.

(** Writing a changed node back under a key the bucket already has: Go
    changes the bucket in place, through the pointer [Bucket] returned. *)
Fixpoint store (b : Bucket) (key : bytes.t) (n : node) : Bucket :=
  match b with
  | [] => []
  | (k, m) :: b' =>
      if String.eqb k key then (k, n) :: b' else (k, m) :: store b' key n
  end.

(** [b.Put(key, value)] inside transaction [tx]. *)
Definition Put (tx : Tx) (b : Bucket) (key val : bytes.t) : result Bucket :=
  if negb (tx_writable tx) then fail ErrTxNotWritable
  else if (bytes.len key =? 0)%N then fail ErrKeyRequired
  else if (MaxKeySize <? bytes.len key)%N then fail ErrKeyTooLarge
  else if (MaxValueSize <? bytes.len val)%N then fail ErrValueTooLarge
  else match lookup b key with
       | Some (nested _) => fail ErrIncompatibleValue
       | _ => ok (insert b key (value val))
       end.

(** ** Cursors

    A cursor is the list of entries from its position to the end of the
    bucket; the empty list is the position past the last key, where
    [Seek] and [Next] return a nil key. *)
Definition Cursor := list (bytes.t * node).

(** [c.Seek(seek)]: the first key that is not below [seek]. *)
Fixpoint Seek (b : Bucket) (seek : bytes.t) : Cursor :=
  match b with
  | [] => []
  | (k, n) :: b' => if bytes.ltb k seek then Seek b' seek else b
  end.

Definition Next (c : Cursor) : Cursor := tl c.

(** The value a cursor hands out: nil at a nested bucket. *)
Definition value_of (n : node) : option bytes.t :=
  match n with
  | value v => Some v
  | nested _ => None
  end.

(** [db.View(fn)]: [fn] runs in a read-only transaction. *)
Definition View {A} (db : DB) (fn : Tx -> A) : A :=
  fn {| tx_db := db; tx_writable := false |}.

(** [db.Update(fn)]: [fn] runs in a writable transaction and returns the
    file as it leaves it; the file is committed when [fn] returns no error
    and rolled back otherwise. *)
Definition Update (db : DB) (fn : Tx -> DB * option error) : DB * option error :=
  match fn {| tx_db := db; tx_writable := true |} with
  | (db', None) => (db', None)
  | (_, Some e) => (db, Some e)
  end.

End bolt.

(* ================================================================== *)
(** * The ActivityStreams vocabulary (github.com/go-ap/activitystreams) *)
(* ================================================================== *)

Module activitystreams.

Definition IRI := string.
Definition ObjectID := string.
Definition ActivityVocabularyType := string.

(** The concrete Go types that an [as.Item] interface value can hold and
    that the adapter converts to. *)
Inductive Concrete : Type :=
| Activity | Place | Profile | Relationship | Tombstone | Object | Link.

(** An item as the adapter sees it: its dynamic type, identifier and type
    tag; [Props] are the remaining properties, which only the codec reads. *)
Record Item := mkItem {
  Dyn : Concrete;
  ID : ObjectID;
  Typ : ActivityVocabularyType;
  Props : string
}.

(** The methods are those of an item that is there: a nil interface value,
    on which Go panics at the first method call, is not an [Item]. *)
Definition GetID (it : Item) : ObjectID := ID it.
Definition GetType (it : Item) : ActivityVocabularyType := Typ it.
Definition GetLink (it : Item) : IRI := ID it.

(** The assignment [p.ID = id]. *)
Definition setID (p : Item) (id : ObjectID) : Item :=
  {| Dyn := Dyn p; ID := id; Typ := Typ p; Props := Props p |}.

Definition ItemCollection := list Item.

Record OrderedCollection := mkOrderedCollection {
  col_ID : ObjectID;
  col_Type : ActivityVocabularyType;
  OrderedItems : ItemCollection;
  TotalItems : N
}.

Definition PlaceType : ActivityVocabularyType := "Place".
Definition ProfileType : ActivityVocabularyType := "Profile".
Definition RelationshipType : ActivityVocabularyType := "Relationship".
Definition TombstoneType : ActivityVocabularyType := "Tombstone".
Definition OrderedCollectionType : ActivityVocabularyType := "OrderedCollection".

(** [types.Contains(typ)]. *)
Definition Contains (types : list ActivityVocabularyType)
                    (typ : ActivityVocabularyType) : bool :=
  existsb (String.eqb typ) types.

(** What the adapter calls in the package and does not define itself.  A
    conversion returns a pointer, [None] when nil, and an error, [None]
    when nil; the adapter relies on no relation between the two. *)
Class Vocabulary := {
  ActivityTypes : list ActivityVocabularyType;
  ActorTypes : list ActivityVocabularyType;
  ObjectTypes : list ActivityVocabularyType;
  ToActivity : Item -> option Item * option error;
  ToPlace : Item -> option Item * option error;
  ToProfile : Item -> option Item * option error;
  ToRelationship : Item -> option Item * option error;
  ToTombstone : Item -> option Item * option error;
  ToObject : Item -> option Item * option error;
  UnmarshalJSON : bytes.t -> result Item
}.

End activitystreams.
Export activitystreams.

(* ================================================================== *)
(** * The codec (github.com/go-ap/jsonld) *)
(* ================================================================== *)

Module jsonld.

(** [Marshal(it)] and [Unmarshal(blob, &IRIs)] with [IRIs []as.IRI]. *)
Class Codec := {
  Marshal : Item -> result bytes.t;
  Unmarshal : bytes.t -> result (list IRI)
}.

End jsonld.

(* ================================================================== *)
(** * Filters (github.com/go-ap/storage) *)
(* ================================================================== *)

Module storage.

(** [Filterable]: all the adapter asks of a filter is [f.IRIs()]. *)
Definition Filterable := list IRI.
Definition IRIs (f : Filterable) : list IRI := f.

End storage.

(* ================================================================== *)
(** * The adapter (package boltdb) *)
(* ================================================================== *)

Module boltdb.
Import storage.

Section adapter.

Context {vocabulary : Vocabulary} {codec : jsonld.Codec}.

(** [strings.ToLower]. *)
Variable ToLower : string -> string.

(** The repository: the open file, the name of the root bucket, and the
    messages handed to [logFn] so far ([errFn] is never called). *)
Record boltDB := mkBoltDB {
  d : bolt.DB;
  root : bytes.t;
  logged : list string
}.

Definition bucketActors : bytes.t := "actors".
Definition bucketActivities : bytes.t := "activities".
Definition bucketObjects : bytes.t := "objects".
Definition bucketCollections : bytes.t := "collections".

(** [New]: [opened] is what [bolt.Open(c.Path, 0600, nil)] returned. *)
Definition New (opened : result bolt.DB) (BucketName : string) : result boltDB :=
  match opened with
  | fail err => fail (Annotatef err "could not open db")
  | ok db =>
      let rootBucket := BucketName in
      let '(_, err) :=
        bolt.Update db (fun tx =>
          match bolt.Tx_Bucket tx rootBucket with
          | None =>
              (bolt.tx_db tx,
               Some (NotFoundf "root bucket not found or is not writeable"))
          | Some _ =>
              if negb (bolt.tx_writable tx)
              then (bolt.tx_db tx,
                    Some (NotFoundf "root bucket not found or is not writeable"))
              else (bolt.tx_db tx, None)
          end) in
      match err with
      | Some err => fail (Annotatef err "could not set up buckets")
      | None => ok {| d := db; root := rootBucket; logged := [] |}
      end
  end.

(** The inner loop of [loadFromBucket]:
    [for k, v := c.Seek(prefix); k != nil && bytes.HasPrefix(k, prefix);
         k, v = c.Next()],
    started with the cursor where [Seek] left it.  A value that does not
    decode adds nothing to [col]. *)
Fixpoint scan (prefix : bytes.t) (c : bolt.Cursor) (col : ItemCollection)
  : ItemCollection :=
  match c with
  | [] => col
  | (k, n) :: next =>
      if bytes.HasPrefix k prefix then
        scan prefix next
          match UnmarshalJSON (bolt.slice (bolt.value_of n)) with
          | ok it => (col ++ [it])%list
          | fail _ => col
          end
      else col
  end.

Definition loadFromBucket (db : bolt.DB) (root bucket : bytes.t) (f : Filterable)
  : ItemCollection * N * option error :=
  let col : ItemCollection := [] in
  let '(col, err) :=
    bolt.View db (fun tx =>
      match bolt.Tx_Bucket tx root with
      | None => (col, Some (Errorf ("Invalid bucket " ++ root)))
      | Some rb =>
          match bolt.Bucket_of rb bucket with
          | None =>
              (col, Some (Errorf ("Invalid bucket " ++ root ++ "." ++ bucket)))
          | Some b =>
              (fold_left
                 (fun col iri =>
                    let prefix : bytes.t := iri in
                    scan prefix (bolt.Seek b prefix) col)
                 (IRIs f) col,
               None)
          end
      end) in
  (col, N.of_nat (length col), err).

Definition Load (b : boltDB) (f : Filterable) : ItemCollection * N * option error :=
  ([], 0%N, Some (NotImplementedf "BoltDB Load not implemented")).

Definition LoadActivities (b : boltDB) (f : Filterable) :=
  loadFromBucket (d b) (root b) bucketActivities f.

Definition LoadObjects (b : boltDB) (f : Filterable) :=
  loadFromBucket (d b) (root b) bucketObjects f.

Definition LoadActors (b : boltDB) (f : Filterable) :=
  loadFromBucket (d b) (root b) bucketActors f.

(** Modelled from the spec: [boltFilters], the filter type that
    [LoadCollection] builds from the member identifiers, is declared in a
    file of the package that is not at hand; the member-identifier list is
    used as the new filter, so [IRIs()] returns the [iris] field. *)
Definition boltFilters (iris : list IRI) : Filterable := iris.

(** The three flags of [LoadCollection].  The loop over the members ends
    with an unconditional [break]: only the first member is looked at. *)
Definition searchFlags (IRIs : list IRI) : bool * bool * bool :=
  match IRIs with
  | [] => (false, false, false)
  | it :: _ =>
      (bytes.Contains it bucketActors,
       bytes.Contains it bucketObjects,
       bytes.Contains it bucketActivities)
  end.

(** [col.OrderedItems, col.TotalItems, err = load(f)]; the [err] assigned
    here is the one declared by the enclosing [if] and is not read again. *)
Definition setItems (col : OrderedCollection)
                    (r : ItemCollection * N * option error) : OrderedCollection :=
  let '(items, total, _) := r in
  {| col_ID := col_ID col; col_Type := col_Type col;
     OrderedItems := items; TotalItems := total |}.

(** The body of [LoadCollection]'s loop once the member list [IRIs] of the
    collection [iri] has been decoded. *)
Definition materialize (b : boltDB) (iri : IRI) (IRIs : list IRI)
  : OrderedCollection :=
  let col := {| col_ID := iri; col_Type := OrderedCollectionType;
                OrderedItems := []; TotalItems := 0 |} in
  let f := boltFilters IRIs in
  let '(searchActors, searchObjects, searchActivities) := searchFlags IRIs in
  let col := if searchActivities then setItems col (LoadActivities b f) else col in
  let col := if searchActors then setItems col (LoadActors b f) else col in
  let col := if searchObjects then setItems col (LoadObjects b f) else col in
  col.

Definition LoadCollection (b : boltDB) (f : Filterable)
  : option OrderedCollection * option error :=
  let ret : option OrderedCollection := None in
  bolt.View (d b) (fun tx =>
    match bolt.Tx_Bucket tx (root b) with
    | None => (ret, Some (Errorf ("Invalid bucket " ++ root b)))
    | Some rb =>
        let bucket := bucketCollections in
        match bolt.Bucket_of rb bucket with
        | None =>
            (ret, Some (Errorf ("Invalid bucket " ++ root b ++ "." ++ bucket)))
        | Some cb =>
            (fold_left
               (fun ret iri =>
                  let blob := bolt.Get cb iri in
                  match jsonld.Unmarshal (bolt.slice blob) with
                  | ok IRIs => Some (materialize b iri IRIs)
                  | fail _ => ret
                  end)
               (IRIs f) ret,
             None)
        end
    end).

(** [save]: returns the file as the call leaves it, the item and the error. *)
Definition save (db : bolt.DB) (rootBkt bucket : bytes.t) (it : Item)
  : bolt.DB * (Item * option error) :=
  match jsonld.Marshal it with
  | fail err => (db, (it, Some (Annotatef err "could not marshal activity")))
  | ok entryBytes =>
      let '(db, err) :=
        bolt.Update db (fun tx =>
          let unchanged := bolt.tx_db tx in
          match bolt.Tx_Bucket tx rootBkt with
          | None => (unchanged, Some (Errorf ("Invalid bucket " ++ rootBkt)))
          | Some root =>
              if negb (bolt.tx_writable tx) then
                (unchanged, Some (Errorf ("Non writeable bucket " ++ rootBkt)))
              else
                match bolt.Bucket_of root bucket with
                | None =>
                    (unchanged,
                     Some (Errorf ("Invalid bucket " ++ rootBkt ++ "." ++ bucket)))
                | Some b =>
                    if negb (bolt.tx_writable tx) then
                      (unchanged,
                       Some (Errorf ("Non writeable bucket " ++ rootBkt
                                       ++ " " ++ bucket)))
                    else
                      match bolt.Put tx b (GetLink it) entryBytes with
                      | fail err =>
                          (unchanged,
                           Some (fmt_Errorf ("could not insert entry: "
                                               ++ Error err)))
                      | ok b' =>
                          (bolt.store (bolt.tx_db tx) rootBkt
                             (bolt.nested (bolt.store root bucket (bolt.nested b'))),
                           None)
                      end
                end
          end) in
      (db, (it, err))
  end.

(** The three public saves: [save], then a call of [logFn] on success. *)
Definition saveAndLog (b : boltDB) (bucket : bytes.t) (it : Item)
  : boltDB * (Item * option error) :=
  let '(db, (it, err)) := save (d b) (root b) bucket it in
  let logged :=
    match err with
    | None => (logged b ++ [("Added new activity: " ++ GetLink it)%string])%list
    | Some _ => logged b
    end in
  ({| d := db; root := root b; logged := logged |}, (it, err)).

Definition SaveActivity (b : boltDB) (it : Item) := saveAndLog b bucketActivities it.
Definition SaveActor (b : boltDB) (it : Item) := saveAndLog b bucketActors it.
Definition SaveObject (b : boltDB) (it : Item) := saveAndLog b bucketObjects it.

Definition UpdateActor (b : boltDB) (it : Item) : Item * option error :=
  (it, Some (NotImplementedf "UpdateActor not implemented in boltdb package")).
Definition DeleteActor (b : boltDB) (it : Item) : Item * option error :=
  (it, Some (NotImplementedf "DeleteActor not implemented in boltdb package")).
Definition UpdateObject (b : boltDB) (it : Item) : Item * option error :=
  (it, Some (NotImplementedf "UpdateObject not implemented in boltdb package")).
Definition DeleteObject (b : boltDB) (it : Item) : Item * option error :=
  (it, Some (NotImplementedf "DeleteObject not implemented in boltdb package")).

(** How a call of [GenerateID] ends: with its two results, or in the panic
    of an assignment through a nil pointer. *)
Inductive outcome : Type :=
| Return (id : ObjectID) (err : option error)
| Panic.

(** The conversion that the [switch it.GetType()] of [GenerateID] picks. *)
Definition conversion (typ : ActivityVocabularyType)
  : Item -> option Item * option error :=
  if String.eqb typ PlaceType then ToPlace
  else if String.eqb typ ProfileType then ToProfile
  else if String.eqb typ RelationshipType then ToRelationship
  else if String.eqb typ TombstoneType then ToTombstone
  else ToObject.

(** [GenerateID]: [uuid] is what [uuid.New()] returned.  Besides the
    outcome, the result lists the objects whose [ID] field was assigned, as
    they are after the assignment: the assignments go through the pointer a
    conversion returned, which may point to the caller's object. *)
Definition GenerateID (uuid : string) (it : Item) (partOf : IRI) (by_ : Item)
  : list Item * outcome :=
  let id : ObjectID := ToLower partOf ++ "/" ++ uuid in
  let activity : list Item * Item + list Item * outcome :=
    if Contains ActivityTypes (GetType it) then
      let '(a, err) := ToActivity it in
      match err with
      | None => inr ([], Return (GetID it) err)
      | Some _ =>
          match a with
          | None => inr ([], Panic)
          | Some a => let a := setID a id in inl ([a], a)
          end
      end
    else inl ([], it) in
  match activity with
  | inr out => out
  | inl (assigned, it) =>
      if Contains ActorTypes (GetType it) || Contains ObjectTypes (GetType it)
      then
        let '(p, err) := conversion (GetType it) it in
        match err with
        | Some _ => (assigned, Return (GetID it) err)
        | None =>
            match p with
            | None => (assigned, Panic)
            | Some p =>
                let p := setID p id in
                ((assigned ++ [p])%list, Return (GetID p) None)
            end
        end
      else (assigned, Return (GetID it) None)
  end.

End adapter.
End boltdb.

(* ================================================================== *)
(** * A vocabulary and a codec to run the adapter on *)
(* ================================================================== *)

(** The adapter is stated over any vocabulary package and any codec.  To
    evaluate it on concrete stores, this module supplies one of each: the
    type lists of the ActivityStreams vocabulary, conversions that succeed
    exactly on an item of the concrete type asked for and return a nil
    pointer with an error otherwise, and a line-oriented codec. *)
Module sample.

Definition activityTypes : list ActivityVocabularyType :=
  ["Accept"; "Add"; "Announce"; "Block"; "Create"; "Delete"; "Dislike";
   "Flag"; "Follow"; "Ignore"; "Invite"; "Join"; "Leave"; "Like"; "Listen";
   "Move"; "Offer"; "Reject"; "Read"; "Remove"; "TentativeReject";
   "TentativeAccept"; "Undo"; "Update"; "View"].

Definition actorTypes : list ActivityVocabularyType :=
  ["Application"; "Group"; "Organization"; "Person"; "Service"].

Definition objectTypes : list ActivityVocabularyType :=
  ["Article"; "Audio"; "Document"; "Event"; "Image"; "Note"; "Page";
   "Place"; "Profile"; "Relationship"; "Tombstone"; "Video"].

Definition same (a b : Concrete) : bool :=
  match a, b with
  | Activity, Activity | Place, Place | Profile, Profile
  | Relationship, Relationship | Tombstone, Tombstone
  | Object, Object | Link, Link => true
  | _, _ => false
  end.

(** A conversion as a type switch on the dynamic type. *)
Definition convert (to : Concrete) (msg : string) (it : Item)
  : option Item * option error :=
  if same (Dyn it) to then (Some it, None) else (None, Some (New msg)).

(** Fields of a stored item are separated by ['|'], the members of a stored
    collection by [','] between ['['] and [']']. *)
Fixpoint split (sep : ascii) (s cur : string) : list string :=
  match s with
  | EmptyString => [cur]
  | String c s' =>
      if Ascii.eqb c sep then cur :: split sep s' EmptyString
      else split sep s' (cur ++ String c EmptyString)
  end.

Definition tag (c : Concrete) : string :=
  match c with
  | Activity => "activity" | Place => "place" | Profile => "profile"
  | Relationship => "relationship" | Tombstone => "tombstone"
  | Object => "object" | Link => "link"
  end.

Definition untag (s : string) : option Concrete :=
  find (fun c => String.eqb (tag c) s)
       [Activity; Place; Profile; Relationship; Tombstone; Object; Link].

Definition marshal (it : Item) : result bytes.t :=
  if bytes.Contains (ID it) "|" || bytes.Contains (Typ it) "|"
  then fail (New "unsupported value")
  else ok (tag (Dyn it) ++ "|" ++ ID it ++ "|" ++ Typ it ++ "|" ++ Props it).

Definition unmarshalJSON (blob : bytes.t) : result Item :=
  match split "|" blob EmptyString with
  | t :: id :: typ :: props =>
      match untag t with
      | Some c => ok (mkItem c id typ (String.concat "|" props))
      | None => fail (New "cannot decode")
      end
  | _ => fail (New "unexpected end of input")
  end.

Fixpoint members (s cur : string) : result (list IRI) :=
  match s with
  | EmptyString => fail (New "unexpected end of input")
  | String c s' =>
      if Ascii.eqb c "]" then
        match s' with
        | EmptyString => ok (if String.eqb cur "" then [] else [cur])
        | _ => fail (New "invalid character after top-level value")
        end
      else if Ascii.eqb c "," then
        match members s' EmptyString with
        | ok l => ok (cur :: l)
        | fail e => fail e
        end
      else members s' (cur ++ String c EmptyString)
  end.

Definition unmarshal (blob : bytes.t) : result (list IRI) :=
  match blob with
  | String "[" s => members s EmptyString
  | _ => fail (New "unexpected end of input")
  end.

#[export] Instance vocabulary : Vocabulary := {|
  ActivityTypes := activityTypes;
  ActorTypes := actorTypes;
  ObjectTypes := objectTypes;
  ToActivity := convert Activity "unable to convert activity";
  ToPlace := convert Place "unable to convert place";
  ToProfile := convert Profile "unable to convert profile";
  ToRelationship := convert Relationship "unable to convert relationship";
  ToTombstone := convert Tombstone "unable to convert tombstone";
  ToObject := convert Object "unable to convert object";
  UnmarshalJSON := unmarshalJSON
|}.

#[export] Instance codec : jsonld.Codec := {|
  jsonld.Marshal := marshal;
  jsonld.Unmarshal := unmarshal
|}.

(** ASCII lower-casing, for [strings.ToLower]. *)
Definition lower (c : ascii) : ascii :=
  let n := N_of_ascii c in
  if ((65 <=? n) && (n <=? 90))%N then ascii_of_N (n + 32) else c.

Fixpoint toLower (s : string) : string :=
  match s with
  | EmptyString => EmptyString
  | String c s' => String (lower c) (toLower s')
  end.

(** A store: root bucket [ap] with the four buckets of the layout. *)
Definition note1 : Item := mkItem Object "http://x/objects/1" "Note" "hello".
Definition note10 : Item := mkItem Object "http://x/objects/10" "Note" "later".
Definition alice : Item := mkItem Object "http://x/actors/alice" "Person" "".
Definition create1 : Item := mkItem Activity "http://x/activities/1" "Create" "".

(** An activity that has an identifier already. *)
Definition activity1 : Item :=
  mkItem Activity "http://example.com/activities/1" "Create" "".

(** Items tagged as activities that are not held as activities. *)
Definition mistyped : Item :=
  mkItem Object "http://example.com/activities/1" "Create" "".
Definition follow_link : Item :=
  mkItem Link "http://example.com/activities/2" "Follow" "".

Definition token : string := "f47ac10b-58cc-4372-a567-0e02b2c3d479".

Definition blob (it : Item) : bytes.t :=
  match marshal it with ok v => v | fail _ => "" end.

Definition entry (it : Item) : bytes.t * bolt.node := (ID it, bolt.value (blob it)).

Definition review : Item :=
  mkItem Activity "http://x/activities/objects/1" "Update" "".

Definition file : bolt.DB :=
  [("ap", bolt.nested
     [("activities", bolt.nested [entry create1; entry review]);
      ("actors", bolt.nested [entry alice]);
      ("collections", bolt.nested
         [("http://x/broken", bolt.value "not a list");
          ("http://x/inbox",
           bolt.value "[http://x/actors/alice,http://x/activities/1]");
          ("http://x/outbox",
           bolt.value "[http://x/activities/objects/1]")]);
      ("objects", bolt.nested [entry note10])])].

Definition repo : boltdb.boltDB := boltdb.mkBoltDB file "ap" [].

(** A file whose [objects] bucket holds a value that is not an item. *)
Definition note2 : Item := mkItem Object "http://x/objects/2" "Note" "again".

Definition damaged : boltdb.boltDB :=
  boltdb.mkBoltDB
    [("ap", bolt.nested
       [("objects", bolt.nested
          [entry note1;
           ("http://x/objects/10", bolt.value "\x00\x00");
           entry note2])])]
    "ap" [].

(** The same file before its [actors] bucket was created. *)
Definition file_without_actors : bolt.DB :=
  [("ap", bolt.nested
     [("activities", bolt.nested [entry create1]);
      ("collections", bolt.nested []);
      ("objects", bolt.nested [entry note10])])].

Definition without_actors : boltdb.boltDB :=
  boltdb.mkBoltDB file_without_actors "ap" [].

(** [repo] after [note1] was saved as an object. *)
Definition repo_with_note1 : boltdb.boltDB :=
  fst (boltdb.SaveObject repo note1).

(** A second version of [note1], under the same identifier. *)
Definition note1_edited : Item :=
  mkItem Object "http://x/objects/1" "Note" "hello again".

(** An item tagged [Place] that is not held as a place. *)
Definition mistagged_place : Item :=
  mkItem Object "http://x/objects/here" "Place" "".

(** A collection, which is of none of the three kinds of type. *)
Definition inbox : Item :=
  mkItem Object "http://x/inbox" "OrderedCollection" "".

(** An item without identifier. *)
Definition anonymous : Item := mkItem Object "" "Note" "draft".

(** A file with a collection of actors and no [actors] bucket. *)
Definition file_without_actors_bucket : bolt.DB :=
  [("ap", bolt.nested
     [("collections", bolt.nested
         [("http://x/followers", bolt.value "[http://x/actors/alice]")]);
      ("objects", bolt.nested [entry note10])])].

Definition followers_only : boltdb.boltDB :=
  boltdb.mkBoltDB file_without_actors_bucket "ap" [].

(** A file whose root bucket has no collections bucket. *)
Definition file_without_collections : bolt.DB :=
  [("ap", bolt.nested
     [("actors", bolt.nested [entry alice]);
      ("objects", bolt.nested [entry note10])])].

Definition without_collections : boltdb.boltDB :=
  boltdb.mkBoltDB file_without_collections "ap" [].

End sample.

(* ================================================================== *)
(** * Vocabulary of the properties *)
(* ================================================================== *)

Module query.
Import storage.

Section query.

Context {vocabulary : Vocabulary} {codec : jsonld.Codec}.

(** The three kinds that have a load and a save of their own. *)
Inductive kind : Type := actors | activities | objects.

Definition bucketName (k : kind) : bytes.t :=
  match k with
  | actors => boltdb.bucketActors
  | activities => boltdb.bucketActivities
  | objects => boltdb.bucketObjects
  end.

Definition load (k : kind) : boltdb.boltDB -> Filterable -> ItemCollection * N * option error :=
  match k with
  | actors => boltdb.LoadActors
  | activities => boltdb.LoadActivities
  | objects => boltdb.LoadObjects
  end.

Definition save (k : kind) : boltdb.boltDB -> Item -> boltdb.boltDB * (Item * option error) :=
  match k with
  | actors => boltdb.SaveActor
  | activities => boltdb.SaveActivity
  | objects => boltdb.SaveObject
  end.

(** The bucket [name] of the repository, when it and the root bucket exist. *)
Definition bucketNamed (b : boltdb.boltDB) (name : bytes.t) : option bolt.Bucket :=
  match bolt.Bucket_of (boltdb.d b) (boltdb.root b) with
  | Some rb => bolt.Bucket_of rb name
  | None => None
  end.

(** The entries stored for a kind: none when a bucket is missing. *)
Definition stored (b : boltdb.boltDB) (k : kind) : bolt.Bucket :=
  match bucketNamed b (bucketName k) with
  | Some entries => entries
  | None => []
  end.

(** The entries whose key starts with [prefix], in the order of the bucket. *)
Definition matches (entries : bolt.Bucket) (prefix : bytes.t) : bolt.Bucket :=
  filter (fun e => bytes.HasPrefix (fst e) prefix) entries.

(** The items that the values of [entries] decode to, in order; a value that
    does not decode gives none. *)
Definition decoded (entries : bolt.Bucket) : ItemCollection :=
  flat_map
    (fun e =>
       match UnmarshalJSON (bolt.slice (bolt.value_of (snd e))) with
       | ok it => [it]
       | fail _ => []
       end)
    entries.

(** The entries of the collections bucket: none when a bucket is missing. *)
Definition collections (b : boltdb.boltDB) : bolt.Bucket :=
  match bucketNamed b boltdb.bucketCollections with
  | Some entries => entries
  | None => []
  end.

(** The matches of all the prefixes of a filter, prefix after prefix. *)
Definition answer (entries : bolt.Bucket) (f : Filterable) : ItemCollection :=
  flat_map (fun prefix => decoded (matches entries prefix)) (IRIs f).

Definition items (r : ItemCollection * N * option error) : ItemCollection := fst (fst r).
Definition count (r : ItemCollection * N * option error) : N := snd (fst r).
Definition err (r : ItemCollection * N * option error) : option error := snd r.

(** The entries other than [key]'s whose key starts with [key]. *)
Definition extensions (entries : bolt.Bucket) (key : bytes.t) : bolt.Bucket :=
  filter (fun e => bytes.HasPrefix (fst e) key && negb (String.eqb (fst e) key))
         entries.

(** The classification of a collection in the words of the specification:
    activities if any member contains [activities], else actors if any
    member contains [actors], else objects if any contains [objects]. *)
Definition classify_any (IRIs : list IRI) : option kind :=
  if existsb (fun it => bytes.Contains it boltdb.bucketActivities) IRIs
  then Some activities
  else if existsb (fun it => bytes.Contains it boltdb.bucketActors) IRIs
  then Some actors
  else if existsb (fun it => bytes.Contains it boltdb.bucketObjects) IRIs
  then Some objects
  else None.

(** The classification the adapter makes: by the first member alone, and the
    load made last (objects after actors after activities) is the one kept. *)
Definition classify_first (IRIs : list IRI) : option kind :=
  match IRIs with
  | [] => None
  | it :: _ =>
      if bytes.Contains it boltdb.bucketObjects then Some objects
      else if bytes.Contains it boltdb.bucketActors then Some actors
      else if bytes.Contains it boltdb.bucketActivities then Some activities
      else None
  end.

(** The members a classification loads. *)
Definition loaded (b : boltdb.boltDB) (c : option kind) (IRIs : list IRI)
  : ItemCollection * N :=
  match c with
  | Some k => fst (load k b (boltdb.boltFilters IRIs))
  | None => ([], 0%N)
  end.

(** What [Put] asks of a key and a value before it writes them to a bucket:
    a key that is not empty, not above the size limit and not the name of a
    nested bucket, and a value not above its size limit. *)
Definition accepted (entries : bolt.Bucket) (key v : bytes.t) : Prop :=
  key <> ""
  /\ (bytes.len key <= bolt.MaxKeySize)%N
  /\ (bytes.len v <= bolt.MaxValueSize)%N
  /\ bolt.Bucket_of entries key = None.

(** What holds of the result of the loop of [LoadCollection] at each turn. *)
Definition shaped (f : list IRI) (ret : option OrderedCollection) : Prop :=
  match ret with
  | None => True
  | Some col =>
      In (col_ID col) f
      /\ col_Type col = OrderedCollectionType
      /\ TotalItems col = N.of_nat (length (OrderedItems col))
  end.

(** The line a save hands to [logFn]. *)
Definition logLine (it : Item) : string := "Added new activity: " ++ GetLink it.

End query.
End query.

(* ================================================================== *)
(** * Byte order and prefixes *)
(* ================================================================== *)

Section bytes_facts.

Lemma ascii_compare_refl (a : ascii) : Ascii.compare a a = Eq.
Proof. apply N.compare_refl. Qed.

Lemma ascii_compare_trans (a b c : ascii) :
  Ascii.compare a b = Lt -> Ascii.compare b c = Lt -> Ascii.compare a c = Lt.
Proof.
  unfold Ascii.compare. rewrite !N.compare_lt_iff. apply N.lt_trans.
Qed.

Lemma compare_refl (s : string) : String.compare s s = Eq.
Proof.
  induction s as [|a s IH]; simpl; [reflexivity|].
  now rewrite ascii_compare_refl.
Qed.

Lemma lt_irrefl (s : string) : ~ bytes.lt s s.
Proof. unfold bytes.lt. rewrite compare_refl. discriminate. Qed.

Lemma lt_trans (a b c : string) : bytes.lt a b -> bytes.lt b c -> bytes.lt a c.
Proof.
  unfold bytes.lt. revert b c.
  induction a as [|x a IH]; intros [|y b] [|z c]; simpl; try congruence.
  destruct (Ascii.compare x y) eqn:Hxy; try discriminate;
    destruct (Ascii.compare y z) eqn:Hyz; try discriminate; intros Hab Hbc.
  - apply Ascii.compare_eq_iff in Hxy, Hyz. subst.
    rewrite ascii_compare_refl. eauto.
  - apply Ascii.compare_eq_iff in Hxy. subst. now rewrite Hyz.
  - apply Ascii.compare_eq_iff in Hyz. subst. now rewrite Hxy.
  - now rewrite (ascii_compare_trans _ _ _ Hxy Hyz).
Qed.

Lemma ltb_lt (a b : string) : bytes.ltb a b = true <-> bytes.lt a b.
Proof.
  unfold bytes.ltb, String.ltb, bytes.lt.
  destruct (String.compare a b); split; congruence.
Qed.

Lemma compare_gt_lt (a b : string) : String.compare a b = Gt -> bytes.lt b a.
Proof.
  unfold bytes.lt. intros H. rewrite String.compare_antisym, H. reflexivity.
Qed.

(** A key is never below one of its prefixes. *)
Lemma prefix_not_lt (p k : string) : bytes.HasPrefix k p = true -> ~ bytes.lt k p.
Proof.
  unfold bytes.HasPrefix, bytes.lt. revert k.
  induction p as [|a p IH]; intros [|b k]; simpl; try discriminate.
  destruct (ascii_dec a b) as [->|]; [|discriminate].
  rewrite ascii_compare_refl. apply IH.
Qed.

(** The keys that start with [p] form an interval that begins at [p]:
    a key between [p] and a key with prefix [p] has prefix [p] itself. *)
Lemma prefix_interval (p k1 k2 : string) :
  ~ bytes.lt k1 p -> bytes.lt k1 k2 ->
  bytes.HasPrefix k2 p = true -> bytes.HasPrefix k1 p = true.
Proof.
  unfold bytes.HasPrefix, bytes.lt. revert k1 k2.
  induction p as [|a p IH]; intros [|b k1] [|c k2]; simpl;
    try reflexivity; try discriminate; try congruence.
  destruct (ascii_dec a c) as [<-|]; [|discriminate].
  destruct (ascii_dec a b) as [<-|Hab].
  - rewrite ascii_compare_refl. apply IH.
  - intros Hge Hlt _. exfalso.
    destruct (Ascii.compare b a) eqn:Hc.
    + apply Ascii.compare_eq_iff in Hc. congruence.
    + now apply Hge.
    + discriminate.
Qed.

(** A key that contains a name as its prefix contains it. *)
Lemma Contains_prefix (s sub : string) :
  String.prefix sub s = true -> bytes.Contains s sub = true.
Proof. intros H. destruct s; cbn [bytes.Contains]; rewrite H; reflexivity. Qed.

End bytes_facts.

(* ================================================================== *)
(** * The engine: ordered buckets, cursors, insertion *)
(* ================================================================== *)

Section engine_facts.

Context {vocabulary : Vocabulary}.

Import query.

Lemma sorted_inv (k : bytes.t) (n : bolt.node) (b : bolt.Bucket) :
  bolt.sorted ((k, n) :: b) ->
  bolt.sorted b /\ Forall (bytes.lt k) (bolt.keys b).
Proof. unfold bolt.sorted. simpl. apply StronglySorted_inv. Qed.

Lemma sorted_app_inv (l1 l2 : bolt.Bucket) (e : bytes.t * bolt.node) :
  bolt.sorted (l1 ++ e :: l2)%list -> bolt.sorted (l1 ++ l2)%list.
Proof.
  unfold bolt.sorted, bolt.keys.
  induction l1 as [|[k n] l1 IH]; simpl; intros H.
  - now apply StronglySorted_inv in H.
  - apply StronglySorted_inv in H as [Hs Hall]. constructor; [now apply IH|].
    rewrite map_app in *. simpl in Hall.
    apply Forall_app in Hall as [H1 H2]. apply Forall_app. split; [exact H1|].
    now inversion H2.
Qed.

Lemma matches_sorted (b : bolt.Bucket) (prefix : bytes.t) :
  bolt.sorted b -> bolt.sorted (matches b prefix).
Proof.
  unfold bolt.sorted, bolt.keys, matches.
  induction b as [|[k n] b IH]; cbn [filter map fst]; intros H; [constructor|].
  apply StronglySorted_inv in H as [Hs Hall].
  destruct (bytes.HasPrefix k prefix); [|now apply IH].
  cbn [map fst]. constructor; [now apply IH|].
  rewrite Forall_forall in *. intros x Hx. apply Hall.
  rewrite in_map_iff in *. destruct Hx as [e [<- He]].
  apply filter_In in He. exists e. tauto.
Qed.

(** No key at or after a key that is not below [prefix] and does not start
    with it starts with it. *)
Lemma matches_nil_after (k prefix : bytes.t) (b : bolt.Bucket) :
  ~ bytes.lt k prefix -> bytes.HasPrefix k prefix = false ->
  Forall (bytes.lt k) (bolt.keys b) -> matches b prefix = [].
Proof.
  intros Hge Hno.
  induction b as [|[k' n'] b IH]; intros Hall; [reflexivity|].
  inversion Hall as [|? ? Hk Hrest]; subst.
  change (matches ((k', n') :: b) prefix)
    with (if bytes.HasPrefix k' prefix then (k', n') :: matches b prefix
          else matches b prefix).
  destruct (bytes.HasPrefix k' prefix) eqn:Hp; [|now apply IH].
  rewrite (prefix_interval prefix k k' Hge Hk Hp) in Hno. discriminate.
Qed.

Lemma matches_cons (k : bytes.t) (n : bolt.node) (b : bolt.Bucket) (prefix : bytes.t) :
  matches ((k, n) :: b) prefix
  = if bytes.HasPrefix k prefix then (k, n) :: matches b prefix
    else matches b prefix.
Proof. reflexivity. Qed.

Lemma decoded_cons (e : bytes.t * bolt.node) (b : bolt.Bucket) :
  decoded (e :: b)
  = (match UnmarshalJSON (bolt.slice (bolt.value_of (snd e))) with
     | ok it => [it]
     | fail _ => []
     end ++ decoded b)%list.
Proof. reflexivity. Qed.

(** The loop from a position where no earlier key matters collects the
    matching entries of the rest of the bucket. *)
Lemma scan_from (prefix : bytes.t) (b : bolt.Bucket) :
  bolt.sorted b -> Forall (fun k => ~ bytes.lt k prefix) (bolt.keys b) ->
  forall col, boltdb.scan prefix b col = (col ++ decoded (matches b prefix))%list.
Proof.
  induction b as [|[k n] b IH]; intros Hs Hge col.
  - simpl. now rewrite app_nil_r.
  - apply sorted_inv in Hs as [Hs Hall].
    inversion Hge as [|? ? Hk Hrest]; subst.
    cbn [boltdb.scan]. rewrite matches_cons.
    destruct (bytes.HasPrefix k prefix) eqn:Hp.
    + rewrite (IH Hs Hrest), decoded_cons. cbn [snd].
      destruct (UnmarshalJSON _); simpl; now rewrite <- ?app_assoc.
    + rewrite (matches_nil_after k prefix b Hk Hp Hall). simpl.
      now rewrite app_nil_r.
Qed.

(** [Seek] followed by the loop collects every entry of the bucket whose
    key starts with the prefix, in key order. *)
Lemma scan_Seek (prefix : bytes.t) (b : bolt.Bucket) :
  bolt.sorted b ->
  forall col,
    boltdb.scan prefix (bolt.Seek b prefix) col
    = (col ++ decoded (matches b prefix))%list.
Proof.
  induction b as [|[k n] b IH]; intros Hs col.
  - simpl. now rewrite app_nil_r.
  - pose proof Hs as Hs'. apply sorted_inv in Hs' as [Hb Hall].
    cbn [bolt.Seek]. destruct (bytes.ltb k prefix) eqn:Hlt.
    + apply ltb_lt in Hlt. rewrite (IH Hb), matches_cons.
      destruct (bytes.HasPrefix k prefix) eqn:Hp; [|reflexivity].
      now apply prefix_not_lt in Hp.
    + apply scan_from; [exact Hs|].
      assert (Hk : ~ bytes.lt k prefix).
      { intros H. apply ltb_lt in H. congruence. }
      cbn [bolt.keys map fst]. constructor; [exact Hk|].
      fold (bolt.keys b).
      rewrite Forall_forall in *. intros x Hx Hxp.
      apply Hk. eapply lt_trans; eauto.
Qed.

(** Without a matching key the loop adds nothing, ordered bucket or not. *)
Lemma scan_no_match (prefix : bytes.t) (c : bolt.Cursor) (col : ItemCollection) :
  (forall key, In key (bolt.keys c) -> bytes.HasPrefix key prefix = false) ->
  boltdb.scan prefix c col = col.
Proof.
  destruct c as [|[k n] c]; cbn [boltdb.scan]; intros H; [reflexivity|].
  now rewrite (H k (or_introl eq_refl)).
Qed.

Lemma Seek_incl (b : bolt.Bucket) (seek key : bytes.t) :
  In key (bolt.keys (bolt.Seek b seek)) -> In key (bolt.keys b).
Proof.
  induction b as [|[k n] b IH]; simpl; [tauto|].
  destruct (bytes.ltb k seek); simpl; tauto.
Qed.

End engine_facts.

(* ================================================================== *)
(** * Per-kind load *)
(* ================================================================== *)

Section load_facts.

Context {vocabulary : Vocabulary} {codec : jsonld.Codec}.

Import storage query.

Lemma load_unfold (k : kind) (b : boltdb.boltDB) (f : Filterable) :
  load k b f = boltdb.loadFromBucket (boltdb.d b) (boltdb.root b) (bucketName k) f.
Proof. destruct k; reflexivity. Qed.

Lemma outer_loop (entries : bolt.Bucket) (f : Filterable) :
  bolt.sorted entries ->
  forall col,
    fold_left
      (fun col iri => boltdb.scan iri (bolt.Seek entries iri) col) f col
    = (col ++ answer entries f)%list.
Proof.
  intros Hs. unfold answer, IRIs.
  induction f as [|p f IH]; intros col; simpl.
  - now rewrite app_nil_r.
  - rewrite IH, (scan_Seek p entries Hs). now rewrite <- app_assoc.
Qed.

Lemma outer_loop_no_match (entries : bolt.Bucket) (f : Filterable) :
  (forall prefix key, In prefix f -> In key (bolt.keys entries) ->
                      bytes.HasPrefix key prefix = false) ->
  forall col,
    fold_left
      (fun col iri => boltdb.scan iri (bolt.Seek entries iri) col) f col
    = col.
Proof.
  induction f as [|p f IH]; intros H col; simpl; [reflexivity|].
  rewrite scan_no_match.
  - apply IH. intros prefix key Hp. apply H. now right.
  - intros key Hk. apply (H p key); [now left|]. eapply Seek_incl; eauto.
Qed.

(** A load when both buckets are there: no error, whatever the values. *)
Lemma load_found (k : kind) (b : boltdb.boltDB) (f : Filterable)
      (entries : bolt.Bucket) :
  bucketNamed b (bucketName k) = Some entries ->
  load k b f =
    let col := fold_left
                 (fun col iri => boltdb.scan iri (bolt.Seek entries iri) col)
                 (IRIs f) [] in
    (col, N.of_nat (length col), None).
Proof.
  rewrite load_unfold. unfold bucketNamed, boltdb.loadFromBucket, bolt.View,
    bolt.Tx_Bucket. cbn [bolt.tx_db].
  destruct (bolt.Bucket_of (boltdb.d b) (boltdb.root b)) as [rb|]; [|discriminate].
  intros ->. reflexivity.
Qed.

(** A load when a bucket is missing: nothing, and an error. *)
Lemma load_missing (k : kind) (b : boltdb.boltDB) (f : Filterable) :
  bucketNamed b (bucketName k) = None ->
  exists e, load k b f = ([], 0%N, Some e).
Proof.
  rewrite load_unfold. unfold bucketNamed, boltdb.loadFromBucket, bolt.View,
    bolt.Tx_Bucket. cbn [bolt.tx_db].
  destruct (bolt.Bucket_of (boltdb.d b) (boltdb.root b)) as [rb|].
  - intros ->. eexists. reflexivity.
  - intros _. eexists. reflexivity.
Qed.

Lemma load_answer (k : kind) (b : boltdb.boltDB) (f : Filterable)
      (entries : bolt.Bucket) :
  bucketNamed b (bucketName k) = Some entries -> bolt.sorted entries ->
  load k b f = (answer entries f, N.of_nat (length (answer entries f)), None).
Proof.
  intros Hb Hs. rewrite (load_found k b f entries Hb). cbv zeta.
  now rewrite (outer_loop entries (IRIs f) Hs).
Qed.

(** C4.  A per-kind load returns, for a filter of any number of prefixes
    (two or more among them), the matches of the first prefix, then those
    of the second, and so on in filter order: the plain concatenation, so
    nothing is removed, merged or re-sorted across prefixes; and the matches
    of each prefix are the stored entries whose key starts with it, taken in
    increasing key order. *)
Theorem load_concatenates_in_filter_order
        (k : kind) (b : boltdb.boltDB) (f : Filterable) :
  bolt.sorted (stored b k) ->
  items (load k b f)
  = flat_map (fun prefix => decoded (matches (stored b k) prefix)) (IRIs f)
  /\ forall prefix,
       StronglySorted bytes.lt (bolt.keys (matches (stored b k) prefix))
       /\ forall key, In key (bolt.keys (matches (stored b k) prefix)) <->
                      In key (bolt.keys (stored b k))
                      /\ bytes.HasPrefix key prefix = true.
Proof.
  intros Hs. split.
  - unfold stored in *.
    destruct (bucketNamed b (bucketName k)) as [entries|] eqn:Hb.
    + now rewrite (load_answer k b f entries Hb Hs).
    + destruct (load_missing k b f Hb) as [e ->]. unfold items. simpl.
      induction (IRIs f) as [|p l IH]; [reflexivity|]. simpl. exact IH.
  - intros prefix. split; [now apply matches_sorted|].
    intros key. unfold bolt.keys, matches. rewrite !in_map_iff. split.
    + intros [e [<- He]]. apply filter_In in He as [He Hp]. split; eauto.
    + intros [[e [<- He]] Hp]. exists e. split; [reflexivity|].
      apply filter_In. split; assumption.
Qed.

(** C5.  When the bucket of a kind holds an entry whose value does not
    decode, a load of that kind returns no error, and returns the items and
    the count it would return if the entry were not there: the entry is
    dropped and every other entry is served. *)
Theorem load_drops_undecodable_value
        (k : kind) (b : boltdb.boltDB) (f : Filterable)
        (before after : bolt.Bucket) (key : bytes.t) (n : bolt.node) (e : error) :
  bucketNamed b (bucketName k) = Some (before ++ (key, n) :: after)%list ->
  bolt.sorted (before ++ (key, n) :: after)%list ->
  UnmarshalJSON (bolt.slice (bolt.value_of n)) = fail e ->
  err (load k b f) = None
  /\ items (load k b f) = answer (before ++ after)%list f
  /\ count (load k b f) = N.of_nat (length (answer (before ++ after)%list f)).
Proof.
  intros Hb Hs Hbad. rewrite (load_answer k b f _ Hb Hs).
  unfold err, items, count. cbn [fst snd].
  assert (Heq : answer (before ++ (key, n) :: after)%list f
                = answer (before ++ after)%list f).
  { unfold answer.
    apply flat_map_ext. intros prefix. unfold matches, decoded.
    rewrite !filter_app, !flat_map_app. f_equal.
    cbn [filter fst]. destruct (bytes.HasPrefix key prefix); [|reflexivity].
    cbn [flat_map snd]. now rewrite Hbad. }
  rewrite Heq. auto.
Qed.

(** The error of a load, in every state of the store: none when the root
    bucket and the bucket of the kind exist, "Invalid bucket <root>" when
    the root bucket is missing, "Invalid bucket <root>.<kind>" when the
    bucket of the kind is. *)
Lemma load_error (k : kind) (b : boltdb.boltDB) (f : Filterable) :
  err (load k b f)
  = match bolt.Bucket_of (boltdb.d b) (boltdb.root b) with
    | None => Some (Errorf ("Invalid bucket " ++ boltdb.root b))
    | Some rb =>
        match bolt.Bucket_of rb (bucketName k) with
        | None =>
            Some (Errorf ("Invalid bucket " ++ boltdb.root b ++ "."
                            ++ bucketName k))
        | Some _ => None
        end
    end.
Proof.
  rewrite load_unfold. unfold boltdb.loadFromBucket, bolt.View, bolt.Tx_Bucket.
  cbn [bolt.tx_db].
  destruct (bolt.Bucket_of (boltdb.d b) (boltdb.root b)) as [rb|];
    [destruct (bolt.Bucket_of rb (bucketName k))|]; reflexivity.
Qed.

(** C7, amended.  When no prefix of the filter is a prefix of a key stored
    for the kind, a per-kind load returns the empty sequence and the count
    zero; it returns no error when the root bucket and the bucket of the
    kind exist, the error "Invalid bucket <root>" when the root bucket is
    missing, and the error "Invalid bucket <root>.<kind>" when the bucket of
    the kind is missing. *)
Theorem load_without_match
        (k : kind) (b : boltdb.boltDB) (f : Filterable) :
  (forall prefix key, In prefix (IRIs f) -> In key (bolt.keys (stored b k)) ->
                      bytes.HasPrefix key prefix = false) ->
  items (load k b f) = []
  /\ count (load k b f) = 0%N
  /\ err (load k b f)
     = match bolt.Bucket_of (boltdb.d b) (boltdb.root b) with
       | None => Some (Errorf ("Invalid bucket " ++ boltdb.root b))
       | Some rb =>
           match bolt.Bucket_of rb (bucketName k) with
           | None =>
               Some (Errorf ("Invalid bucket " ++ boltdb.root b ++ "."
                               ++ bucketName k))
           | Some _ => None
           end
       end.
Proof.
  unfold stored. intros H.
  split; [|split; [|apply load_error]];
    destruct (bucketNamed b (bucketName k)) as [entries|] eqn:Hb.
  - rewrite (load_found k b f entries Hb). cbv zeta.
    now rewrite (outer_loop_no_match entries (IRIs f) H).
  - now destruct (load_missing k b f Hb) as [e ->].
  - rewrite (load_found k b f entries Hb). cbv zeta.
    now rewrite (outer_loop_no_match entries (IRIs f) H).
  - now destruct (load_missing k b f Hb) as [e ->].
Qed.

(** C9.  In every state of the store and for every filter, the count a
    per-kind load returns is the length of the sequence it returns, with an
    error or without. *)
Theorem load_count_is_length
        (k : kind) (b : boltdb.boltDB) (f : Filterable) :
  count (load k b f) = N.of_nat (length (items (load k b f))).
Proof.
  rewrite load_unfold. unfold boltdb.loadFromBucket.
  destruct (bolt.View _ _) as [col e]. reflexivity.
Qed.

End load_facts.

(* ================================================================== *)
(** * Collection load *)
(* ================================================================== *)

Section collection_facts.

Context {vocabulary : Vocabulary} {codec : jsonld.Codec}.

Import storage query.

(** The collection that [LoadCollection] builds for [iri] from its member
    list: the members are those of the load picked by the first member. *)
Lemma materialize_classified (b : boltdb.boltDB) (iri : IRI) (IRIs : list IRI) :
  boltdb.materialize b iri IRIs
  = {| col_ID := iri; col_Type := OrderedCollectionType;
       OrderedItems := fst (loaded b (classify_first IRIs) IRIs);
       TotalItems := snd (loaded b (classify_first IRIs) IRIs) |}.
Proof.
  unfold boltdb.materialize, boltdb.searchFlags, classify_first, loaded.
  destruct IRIs as [|it rest]; [reflexivity|].
  destruct (bytes.Contains it boltdb.bucketObjects),
           (bytes.Contains it boltdb.bucketActors),
           (bytes.Contains it boltdb.bucketActivities);
    unfold boltdb.setItems; cbn [load];
    repeat match goal with
           | |- context [boltdb.LoadActivities ?b ?f] =>
               destruct (boltdb.LoadActivities b f) as [[? ?] ?]
           | |- context [boltdb.LoadActors ?b ?f] =>
               destruct (boltdb.LoadActors b f) as [[? ?] ?]
           | |- context [boltdb.LoadObjects ?b ?f] =>
               destruct (boltdb.LoadObjects b f) as [[? ?] ?]
           end; reflexivity.
Qed.

Lemma LoadCollection_found (b : boltdb.boltDB) (f : Filterable) (cb : bolt.Bucket) :
  bucketNamed b boltdb.bucketCollections = Some cb ->
  boltdb.LoadCollection b f =
    (fold_left
       (fun ret iri =>
          match jsonld.Unmarshal (bolt.slice (bolt.Get cb iri)) with
          | ok IRIs => Some (boltdb.materialize b iri IRIs)
          | fail _ => ret
          end)
       (IRIs f) None,
     None).
Proof.
  unfold bucketNamed, boltdb.LoadCollection, bolt.View, bolt.Tx_Bucket.
  cbn [bolt.tx_db].
  destruct (bolt.Bucket_of (boltdb.d b) (boltdb.root b)) as [rb|]; [|discriminate].
  intros ->. reflexivity.
Qed.

(** Identifiers without a decodable entry leave the result as it is. *)
Lemma collections_skipped (b : boltdb.boltDB) (cb : bolt.Bucket) (f : list IRI) :
  (forall iri, In iri f ->
     exists e, jsonld.Unmarshal (bolt.slice (bolt.Get cb iri)) = fail e) ->
  forall ret,
    fold_left
      (fun ret iri =>
         match jsonld.Unmarshal (bolt.slice (bolt.Get cb iri)) with
         | ok IRIs => Some (boltdb.materialize b iri IRIs)
         | fail _ => ret
         end) f ret = ret.
Proof.
  induction f as [|iri f IH]; intros H ret; simpl; [reflexivity|].
  destruct (H iri (or_introl eq_refl)) as [e ->].
  apply IH. intros j Hj. apply H. now right.
Qed.

(** C1, amended.  In every call of LoadCollection that finds the
    collections bucket, the collection returned is that of the last
    identifier of the filter whose entry decodes to a member list, and the
    kind of its members is decided by the first member identifier alone:
    they are loaded as objects if it contains [objects], else as actors if
    it contains [actors], else as activities if it contains [activities],
    and no member is loaded otherwise. *)
Theorem LoadCollection_classifies_by_first_member
        (b : boltdb.boltDB) (cb : bolt.Bucket)
        (before after : list IRI) (iri : IRI) (members : list IRI) :
  bucketNamed b boltdb.bucketCollections = Some cb ->
  jsonld.Unmarshal (bolt.slice (bolt.Get cb iri)) = ok members ->
  (forall j, In j after ->
     exists e, jsonld.Unmarshal (bolt.slice (bolt.Get cb j)) = fail e) ->
  boltdb.LoadCollection b (before ++ iri :: after)%list
  = (Some {| col_ID := iri; col_Type := OrderedCollectionType;
             OrderedItems := fst (loaded b (classify_first members) members);
             TotalItems := snd (loaded b (classify_first members) members) |},
     None).
Proof.
  intros Hcb Hdec Hafter.
  rewrite (LoadCollection_found b _ cb Hcb). unfold IRIs.
  rewrite fold_left_app. cbn [fold_left]. rewrite Hdec.
  rewrite (collections_skipped b cb after Hafter).
  now rewrite materialize_classified.
Qed.

(** C8, amended.  When, for every identifier of the filter, the collections
    bucket holds either no entry or an entry that does not decode to a
    member list, LoadCollection returns a nil collection; with it, it
    returns a nil error when the root bucket and the collections bucket
    exist, the error "Invalid bucket <root>" when the root bucket is
    missing, and the error "Invalid bucket <root>.collections" when the
    collections bucket is missing.  The codec is one that rejects the empty
    input, which is what it is given for a missing entry. *)
Theorem LoadCollection_nothing_to_decode
        (b : boltdb.boltDB) (f : Filterable) (e0 : error) :
  jsonld.Unmarshal "" = fail e0 ->
  (forall iri, In iri (IRIs f) ->
     bolt.Get (collections b) iri = None
     \/ exists v e, bolt.Get (collections b) iri = Some v
                    /\ jsonld.Unmarshal v = fail e) ->
  boltdb.LoadCollection b f
  = (None,
     match bolt.Bucket_of (boltdb.d b) (boltdb.root b) with
     | None => Some (Errorf ("Invalid bucket " ++ boltdb.root b))
     | Some rb =>
         match bolt.Bucket_of rb boltdb.bucketCollections with
         | None =>
             Some (Errorf ("Invalid bucket " ++ boltdb.root b ++ "."
                             ++ boltdb.bucketCollections))
         | Some _ => None
         end
     end).
Proof.
  intros Hempty H. unfold collections in H.
  destruct (bucketNamed b boltdb.bucketCollections) as [cb|] eqn:Hcb.
  - rewrite (LoadCollection_found b f cb Hcb).
    unfold bucketNamed in Hcb.
    destruct (bolt.Bucket_of (boltdb.d b) (boltdb.root b)) as [rb|];
      [|discriminate].
    rewrite Hcb, collections_skipped; [reflexivity|].
    intros iri Hi. destruct (H iri Hi) as [-> | [v [e [-> Hv]]]]; simpl; eauto.
  - unfold bucketNamed in Hcb.
    unfold boltdb.LoadCollection, bolt.View, bolt.Tx_Bucket. cbn [bolt.tx_db].
    destruct (bolt.Bucket_of (boltdb.d b) (boltdb.root b)) as [rb|];
      [rewrite Hcb|]; reflexivity.
Qed.

End collection_facts.

(* ================================================================== *)
(** * Save *)
(* ================================================================== *)

Section save_facts.

Context {vocabulary : Vocabulary} {codec : jsonld.Codec}.

Import storage query.

Lemma HasPrefix_refl (s : bytes.t) : bytes.HasPrefix s s = true.
Proof.
  unfold bytes.HasPrefix. induction s as [|a s IH]; simpl; [reflexivity|].
  destruct (ascii_dec a a); congruence.
Qed.

Lemma Bucket_of_store (b : bolt.Bucket) (name : bytes.t) (c c' : bolt.Bucket) :
  bolt.Bucket_of b name = Some c ->
  bolt.Bucket_of (bolt.store b name (bolt.nested c')) name = Some c'.
Proof.
  unfold bolt.Bucket_of.
  induction b as [|[k m] b IH]; cbn [bolt.lookup bolt.store]; [discriminate|].
  destruct (String.eqb k name) eqn:Hk; cbn [bolt.lookup]; rewrite Hk.
  - reflexivity.
  - exact IH.
Qed.

Lemma insert_keys (b : bolt.Bucket) (key x : bytes.t) (n : bolt.node) :
  In x (bolt.keys (bolt.insert b key n)) -> x = key \/ In x (bolt.keys b).
Proof.
  induction b as [|[k m] b IH]; cbn [bolt.insert]; simpl; [intuition auto|].
  destruct (String.compare key k); simpl; intuition auto.
Qed.

(** Insertion keeps the keys of a bucket in order. *)
Lemma insert_sorted (b : bolt.Bucket) (key : bytes.t) (n : bolt.node) :
  bolt.sorted b -> bolt.sorted (bolt.insert b key n).
Proof.
  induction b as [|[k m] b IH]; intros Hs.
  - repeat constructor.
  - pose proof Hs as Hs'. apply sorted_inv in Hs' as [Hb Hall].
    cbn [bolt.insert]. destruct (String.compare key k) eqn:Hc.
    + apply String.compare_eq_iff in Hc. subst k. exact Hs.
    + constructor; [exact Hs|]. simpl. constructor; [exact Hc|].
      rewrite Forall_forall in *. intros x Hx.
      eapply lt_trans; [exact Hc|]. now apply Hall.
    + apply compare_gt_lt in Hc.
      unfold bolt.sorted. cbn [bolt.keys map fst]. constructor.
      * now apply IH.
      * rewrite Forall_forall in *. intros x Hx.
        apply insert_keys in Hx as [->|Hx]; [exact Hc|now apply Hall].
Qed.

Lemma matches_without_key (b : bolt.Bucket) (key : bytes.t) :
  Forall (bytes.lt key) (bolt.keys b) -> matches b key = extensions b key.
Proof.
  unfold matches, extensions. intros H. apply filter_ext_in.
  intros [k m] Hin. cbn [fst].
  destruct (String.eqb k key) eqn:Hk; [|now rewrite andb_true_r].
  apply String.eqb_eq in Hk. subst k. exfalso.
  rewrite Forall_forall in H. apply (lt_irrefl key). apply H.
  unfold bolt.keys. apply in_map_iff. now exists (key, m).
Qed.

(** After an insertion under [key], the entries that start with [key] are
    the new entry followed by the old entries that extend [key]. *)
Lemma matches_insert (b : bolt.Bucket) (key : bytes.t) (n : bolt.node) :
  bolt.sorted b ->
  matches (bolt.insert b key n) key = (key, n) :: extensions b key.
Proof.
  induction b as [|[k m] b IH]; intros Hs.
  - cbn [bolt.insert]. rewrite matches_cons, HasPrefix_refl. reflexivity.
  - pose proof Hs as Hs'. apply sorted_inv in Hs' as [Hb Hall].
    cbn [bolt.insert]. destruct (String.compare key k) eqn:Hc.
    + apply String.compare_eq_iff in Hc. subst k.
      rewrite matches_cons, HasPrefix_refl, (matches_without_key b key Hall).
      unfold extensions at 2. cbn [filter fst].
      now rewrite String.eqb_refl, andb_false_r.
    + rewrite matches_cons, HasPrefix_refl. f_equal.
      apply matches_without_key. simpl. constructor; [exact Hc|].
      rewrite Forall_forall in *. intros x Hx.
      eapply lt_trans; [exact Hc|]. now apply Hall.
    + apply compare_gt_lt in Hc.
      assert (Hp : bytes.HasPrefix k key = false).
      { destruct (bytes.HasPrefix k key) eqn:Hp; [|reflexivity].
        now apply prefix_not_lt in Hp. }
      rewrite matches_cons, Hp, (IH Hb).
      unfold extensions at 2. cbn [filter fst]. now rewrite Hp.
Qed.

(** What a save without error has done: the item was serialized and its
    bytes were put under its identifier in the bucket of its kind. *)
Lemma save_done (k : kind) (b b' : boltdb.boltDB) (it it' : Item) :
  save k b it = (b', (it', None)) ->
  exists v entries,
    jsonld.Marshal it = ok v
    /\ bucketNamed b (bucketName k) = Some entries
    /\ bucketNamed b' (bucketName k)
       = Some (bolt.insert entries (GetLink it) (bolt.value v))
    /\ it' = it.
Proof.
  assert (Hsave : save k b it = boltdb.saveAndLog b (bucketName k) it)
    by (destruct k; reflexivity).
  rewrite Hsave. unfold boltdb.saveAndLog, boltdb.save, bucketNamed.
  destruct (jsonld.Marshal it) as [v|e]; [|discriminate].
  unfold bolt.Update, bolt.Tx_Bucket, bolt.Put. cbn [bolt.tx_db bolt.tx_writable negb].
  destruct (bolt.Bucket_of (boltdb.d b) (boltdb.root b)) as [rb|] eqn:Hrb;
    [|discriminate].
  destruct (bolt.Bucket_of rb (bucketName k)) as [entries|] eqn:Hkb;
    [|discriminate].
  destruct (bytes.len (GetLink it) =? 0)%N; [discriminate|].
  destruct (bolt.MaxKeySize <? bytes.len (GetLink it))%N; [discriminate|].
  destruct (bolt.MaxValueSize <? bytes.len v)%N; [discriminate|].
  destruct (bolt.lookup entries (GetLink it)) as [[w|c]|];
    try discriminate; intros H; inversion H; subst;
    exists v, entries; cbn [boltdb.d boltdb.root];
    rewrite (Bucket_of_store _ _ _ _ Hrb), (Bucket_of_store _ _ _ _ Hkb); auto.
Qed.

(** C10.  When the codec fails to serialize an item, each per-kind save
    returns that item with the codec's error, annotated with
    "could not marshal activity", and leaves the repository as it was: the
    file is not touched and nothing is logged. *)
Theorem save_marshal_error_leaves_store
        (k : kind) (b : boltdb.boltDB) (it : Item) (e : error) :
  jsonld.Marshal it = fail e ->
  save k b it = (b, (it, Some (Annotatef e "could not marshal activity"))).
Proof.
  intros H.
  assert (Hsave : save k b it = boltdb.saveAndLog b (bucketName k) it)
    by (destruct k; reflexivity).
  rewrite Hsave. unfold boltdb.saveAndLog, boltdb.save. rewrite H.
  destruct b; reflexivity.
Qed.

(** C6, amended.  After an item is saved without error by the save of its
    kind, a load of that kind whose filter is the item's own identifier
    returns, without error, the item as decoded from its serialization,
    followed by the decodable stored items whose key extends the identifier;
    it returns exactly the item when no other stored key starts with the
    identifier.  The codec is assumed to decode the item's serialization
    back to the item. *)
Theorem save_then_load_by_identifier
        (k : kind) (b b' : boltdb.boltDB) (it it' : Item) :
  bolt.sorted (stored b k) ->
  (forall v, jsonld.Marshal it = ok v -> UnmarshalJSON v = ok it) ->
  save k b it = (b', (it', None)) ->
  it' = it
  /\ err (load k b' [GetLink it]) = None
  /\ items (load k b' [GetLink it])
     = it :: decoded (extensions (stored b k) (GetLink it))
  /\ (extensions (stored b k) (GetLink it) = [] ->
      items (load k b' [GetLink it]) = [it]
      /\ count (load k b' [GetLink it]) = 1%N).
Proof.
  intros Hs Hcodec Hsave.
  destruct (save_done k b b' it it' Hsave) as [v [entries [Hm [Hb [Hb' ->]]]]].
  unfold stored in *. rewrite Hb in *.
  rewrite (load_answer k b' _ _ Hb' (insert_sorted _ _ _ Hs)).
  unfold err, items, count, answer, IRIs. cbn [fst snd flat_map].
  rewrite app_nil_r, (matches_insert _ _ _ Hs), decoded_cons.
  cbn [snd bolt.value_of bolt.slice]. rewrite (Hcodec v Hm). cbn [app].
  split; [reflexivity|]. split; [reflexivity|]. split; [reflexivity|].
  intros ->. split; reflexivity.
Qed.

End save_facts.

(* ================================================================== *)
(** * Identifier generation *)
(* ================================================================== *)

Section identifier_facts.

Context {vocabulary : Vocabulary}.
Variable ToLower : string -> string.

(** The activity branch when the conversion succeeds, where the code does
    what C2 says: for every item whose type tag is an activity type and
    whose conversion to an activity succeeds, GenerateID returns the
    identifier the item already has, with a nil error, and assigns the
    freshly generated identifier to nothing. *)
Theorem GenerateID_activity_keeps_identifier
        (uuid : string) (it : Item) (partOf : IRI) (by_ : Item)
        (a : option Item) :
  Contains ActivityTypes (GetType it) = true ->
  ToActivity it = (a, None) ->
  boltdb.GenerateID ToLower uuid it partOf by_
  = ([], boltdb.Return (GetID it) None).
Proof.
  intros Hty Hconv. unfold boltdb.GenerateID. rewrite Hty, Hconv. reflexivity.
Qed.

(** X21.  The five branches next to the activity branch: when the conversion of
    an actor or object fails, the identifier the item already has is
    returned with the conversion error, and nothing is assigned. *)
Lemma GenerateID_object_conversion_error
      (uuid : string) (it : Item) (partOf : IRI) (by_ : Item)
      (p : option Item) (e : error) :
  Contains ActivityTypes (GetType it) = false ->
  Contains ActorTypes (GetType it) || Contains ObjectTypes (GetType it) = true ->
  boltdb.conversion (GetType it) it = (p, Some e) ->
  boltdb.GenerateID ToLower uuid it partOf by_
  = ([], boltdb.Return (GetID it) (Some e)).
Proof.
  intros Hact Hty Hconv. unfold boltdb.GenerateID.
  rewrite Hact, Hty, Hconv. reflexivity.
Qed.

(** The activity branch when the conversion fails: the error test is the
    other way round, so the identifier the item has is not returned with
    the error; the assignment goes through the pointer returned, a panic
    when that is nil. *)
Lemma GenerateID_activity_conversion_error
      (uuid : string) (it : Item) (partOf : IRI) (by_ : Item) (e : error) :
  Contains ActivityTypes (GetType it) = true ->
  ToActivity it = (None, Some e) ->
  boltdb.GenerateID ToLower uuid it partOf by_ = ([], boltdb.Panic).
Proof.
  intros Hty Hconv. unfold boltdb.GenerateID. rewrite Hty, Hconv. reflexivity.
Qed.

End identifier_facts.

(* ================================================================== *)
(** * The adapter on concrete stores *)
(* ================================================================== *)

Module examples.
Import storage query sample.

Ltac in_order := vm_compute; repeat constructor.

(** The sample codec and engine at work. *)
Example inbox_members :
  jsonld.Unmarshal "[http://x/actors/alice,http://x/activities/1]"
  = ok ["http://x/actors/alice"; "http://x/activities/1"].
Proof. reflexivity. Qed.

Example note1_round_trip :
  jsonld.Marshal note1 = ok "object|http://x/objects/1|Note|hello"
  /\ UnmarshalJSON "object|http://x/objects/1|Note|hello" = ok note1.
Proof. split; reflexivity. Qed.

Example Contains_bucket_names :
  bytes.Contains "http://x/activities/objects/1" boltdb.bucketActivities = true
  /\ bytes.Contains "http://x/activities/objects/1" boltdb.bucketObjects = true
  /\ bytes.Contains "http://x/activities/objects/1" boltdb.bucketActors = false.
Proof. repeat split. Qed.

Example Seek_first_key_not_below :
  bolt.keys (bolt.Seek (stored repo_with_note1 objects) "http://x/objects/10")
  = ["http://x/objects/10"]
  /\ bolt.Seek (stored repo_with_note1 objects) "http://x/objects/2" = [].
Proof. split; reflexivity. Qed.

Example Load_not_implemented :
  boltdb.Load repo ["http://x/"]
  = ([], 0%N, Some (NotImplementedf "BoltDB Load not implemented")).
Proof. reflexivity. Qed.

Example GenerateID_note :
  boltdb.GenerateID toLower token note1 "http://Example.com/objects" alice
  = ([setID note1 "http://example.com/objects/f47ac10b-58cc-4372-a567-0e02b2c3d479"],
     boltdb.Return "http://example.com/objects/f47ac10b-58cc-4372-a567-0e02b2c3d479"
                   None).
Proof. reflexivity. Qed.

(** C4 on the sample store: the filter [objects/10; objects/1] returns the
    match of the first prefix, then the two matches of the second in key
    order; [note10] is returned twice and the whole is not in key order. *)

Lemma load_concatenates_in_filter_order_witness :
  bolt.sorted (stored repo_with_note1 objects)
  /\ items (load objects repo_with_note1
                 ["http://x/objects/10"; "http://x/objects/1"])
     = [note10; note1; note10].
Proof.
  assert (Hs : bolt.sorted (stored repo_with_note1 objects)) by in_order.
  split; [exact Hs|].
  rewrite (proj1 (load_concatenates_in_filter_order
                    objects repo_with_note1
                    ["http://x/objects/10"; "http://x/objects/1"] Hs)).
  reflexivity.
Defined.

(** C5 on a bucket whose second value is not an item. *)
Lemma load_drops_undecodable_value_witness :
  err (load objects damaged ["http://x/objects/"]) = None
  /\ items (load objects damaged ["http://x/objects/"]) = [note1; note2]
  /\ count (load objects damaged ["http://x/objects/"]) = 2%N.
Proof.
  assert (Hs : bolt.sorted ([entry note1]
                            ++ ("http://x/objects/10", bolt.value "\x00\x00")
                            :: [entry note2])%list) by in_order.
  exact (load_drops_undecodable_value
           objects damaged ["http://x/objects/"]
           [entry note1] [entry note2]
           "http://x/objects/10" (bolt.value "\x00\x00")
           (New "unexpected end of input") eq_refl Hs eq_refl).
Defined.

(** C7, amended, on the sample store, where no actor key starts with a
    prefix of the filter, and on the file without [actors] bucket. *)
Lemma load_without_match_witness :
  (items (load actors repo ["http://y/"; "http://x/objects/"]) = []
   /\ count (load actors repo ["http://y/"; "http://x/objects/"]) = 0%N
   /\ err (load actors repo ["http://y/"; "http://x/objects/"]) = None)
  /\ (items (load actors without_actors ["http://x/actors/"]) = []
      /\ count (load actors without_actors ["http://x/actors/"]) = 0%N
      /\ err (load actors without_actors ["http://x/actors/"])
         = Some (Errorf "Invalid bucket ap.actors")).
Proof.
  split.
  - refine (load_without_match actors repo ["http://y/"; "http://x/objects/"] _).
    intros prefix key Hp Hk. vm_compute in Hk.
    destruct Hk as [<-|[]].
    destruct Hp as [<-|[<-|[]]]; reflexivity.
  - refine (load_without_match actors without_actors ["http://x/actors/"] _).
    intros prefix key Hp Hk. vm_compute in Hk. destruct Hk.
Defined.

(** C7 as stated fails on a file that [New] accepts and that has no
    [actors] bucket: no key is stored for actors, so no prefix is a prefix
    of a stored key, and LoadActors returns an error. *)
Lemma missing_bucket_is_reported :
  boltdb.New (ok file_without_actors) "ap" = ok without_actors
  /\ bolt.keys (stored without_actors actors) = []
  /\ load actors without_actors ["http://x/actors/"]
     = ([], 0%N, Some (Errorf "Invalid bucket ap.actors")).
Proof. repeat split. Qed.

(** C1, amended, on [inbox]: first member an actor, second an activity. *)
Lemma LoadCollection_classifies_by_first_member_witness :
  boltdb.LoadCollection repo ["http://x/inbox"; "http://x/missing"]
  = (Some {| col_ID := "http://x/inbox"; col_Type := "OrderedCollection";
             OrderedItems := [alice]; TotalItems := 1 |},
     None).
Proof.
  refine (eq_trans
    (LoadCollection_classifies_by_first_member
       repo
       [("http://x/broken", bolt.value "not a list");
        ("http://x/inbox",
         bolt.value "[http://x/actors/alice,http://x/activities/1]");
        ("http://x/outbox", bolt.value "[http://x/activities/objects/1]")]
       [] ["http://x/missing"] "http://x/inbox"
       ["http://x/actors/alice"; "http://x/activities/1"]
       eq_refl eq_refl _) _).
  - intros j [<-|[]]. eexists. reflexivity.
  - reflexivity.
Defined.

(** C1 as stated fails on both counts.  The members of [inbox] include an
    identifier that contains [activities], yet they are loaded as actors,
    the kind of the first member; the one member of [outbox] contains
    [activities], yet it is loaded as an object, and none is found. *)
Lemma LoadCollection_not_classified_by_any_member :
  (classify_any ["http://x/actors/alice"; "http://x/activities/1"] = Some activities
   /\ loaded repo (Some activities)
             ["http://x/actors/alice"; "http://x/activities/1"]
      = ([create1], 1%N)
   /\ boltdb.LoadCollection repo ["http://x/inbox"]
      = (Some {| col_ID := "http://x/inbox"; col_Type := "OrderedCollection";
                 OrderedItems := [alice]; TotalItems := 1 |}, None))
  /\ (classify_any ["http://x/activities/objects/1"] = Some activities
      /\ loaded repo (Some activities) ["http://x/activities/objects/1"]
         = ([review], 1%N)
      /\ boltdb.LoadCollection repo ["http://x/outbox"]
         = (Some {| col_ID := "http://x/outbox"; col_Type := "OrderedCollection";
                    OrderedItems := []; TotalItems := 0 |}, None)).
Proof. repeat split. Qed.

(** C8, amended, on an identifier without entry and one whose entry is no
    list, and on the file without collections bucket. *)
Lemma LoadCollection_nothing_to_decode_witness :
  boltdb.LoadCollection repo ["http://x/missing"; "http://x/broken"]
  = (None, None)
  /\ boltdb.LoadCollection without_collections ["http://x/inbox"]
     = (None, Some (Errorf "Invalid bucket ap.collections")).
Proof.
  split.
  - refine (LoadCollection_nothing_to_decode
              repo ["http://x/missing"; "http://x/broken"]
              (New "unexpected end of input") eq_refl _).
    intros iri [<-|[<-|[]]].
    + left. reflexivity.
    + right. do 2 eexists. split; reflexivity.
  - refine (LoadCollection_nothing_to_decode
              without_collections ["http://x/inbox"]
              (New "unexpected end of input") eq_refl _).
    intros iri [<-|[]]. left. reflexivity.
Defined.

(** C8 as stated fails on a file that [New] accepts and that has no
    collections bucket: the identifier has no entry there, and
    LoadCollection returns an error with the nil collection. *)
Lemma missing_collections_bucket_is_reported :
  boltdb.New (ok file_without_collections) "ap" = ok without_collections
  /\ bolt.Get (collections without_collections) "http://x/inbox" = None
  /\ boltdb.LoadCollection without_collections ["http://x/inbox"]
     = (None, Some (Errorf "Invalid bucket ap.collections")).
Proof. repeat split. Qed.

(** C10 on an identifier the sample codec cannot serialize. *)
Lemma save_marshal_error_leaves_store_witness :
  save actors repo (mkItem Object "http://x/actors/a|b" "Person" "")
  = (repo, (mkItem Object "http://x/actors/a|b" "Person" "",
            Some (Annotatef (New "unsupported value") "could not marshal activity"))).
Proof.
  apply (save_marshal_error_leaves_store actors repo). reflexivity.
Defined.

(** C6, amended, on the sample store, which holds [objects/10]. *)
Lemma save_then_load_by_identifier_witness :
  save objects repo note1 = (repo_with_note1, (note1, None))
  /\ items (load objects repo_with_note1 [GetLink note1]) = [note1; note10].
Proof.
  split; [reflexivity|].
  refine (eq_trans
    (proj1 (proj2 (proj2 (save_then_load_by_identifier
       objects repo repo_with_note1 note1 note1 _ _ eq_refl)))) _).
  - in_order.
  - intros v Hv. inversion Hv. reflexivity.
  - reflexivity.
Defined.

(** C6 as stated fails when a stored key extends the identifier: with
    [http://x/objects/10] in the bucket, saving [http://x/objects/1] and
    loading by that identifier returns both items. *)
Lemma save_then_load_returns_extensions_too :
  boltdb.SaveObject repo note1 = (repo_with_note1, (note1, None))
  /\ boltdb.LoadObjects repo_with_note1 [GetLink note1]
     = ([note1; note10], 2%N, None).
Proof. repeat split. Qed.

(** The same on the activity [http://example.com/activities/1] with parent
    [http://example.com/activities]. *)
Lemma GenerateID_activity_keeps_identifier_witness :
  boltdb.GenerateID toLower token activity1 "http://example.com/activities" alice
  = ([], boltdb.Return "http://example.com/activities/1" None).
Proof.
  apply (GenerateID_activity_keeps_identifier
           toLower token activity1 "http://example.com/activities" alice
           (Some activity1)); reflexivity.
Defined.

(** C2.  The claim fails, by the same inverted test of the error as C3,
    for an item tagged [Follow] that is not held as an activity: the
    conversion fails, the call goes on to the assignment through the nil
    pointer and ends in a panic; the identifier the item has is not
    returned. *)
Lemma GenerateID_activity_tag_without_activity :
  Contains ActivityTypes (GetType follow_link) = true
  /\ boltdb.GenerateID toLower token follow_link "http://example.com/activities" alice
     = ([], boltdb.Panic).
Proof. repeat split. Qed.

(** C3.  The claim fails on the activity branch.  For [mistyped], tagged
    [Create] and held as a plain object, the conversion to an activity
    returns a nil pointer and an error; GenerateID does not return the
    identifier the item has with that error, it ends in the panic of the
    assignment through the nil pointer. *)
Theorem GenerateID_activity_conversion_failure :
  Contains ActivityTypes (GetType mistyped) = true
  /\ ToActivity mistyped = (None, Some (New "unable to convert activity"))
  /\ boltdb.GenerateID toLower token mistyped "http://example.com/activities" alice
     = ([], boltdb.Panic)
  /\ boltdb.GenerateID toLower token mistyped "http://example.com/activities" alice
     <> ([], boltdb.Return (GetID mistyped)
                           (Some (New "unable to convert activity"))).
Proof. repeat split. discriminate. Qed.

End examples.

(* ================================================================== *)
(** * Opening a repository, and loads without the engine's invariant *)
(* ================================================================== *)

Section repository_facts.

Context {vocabulary : Vocabulary} {codec : jsonld.Codec}.

Import storage query.

Lemma New_done (db : bolt.DB) (name : string) (b : boltdb.boltDB) :
  boltdb.New (ok db) name = ok b ->
  bolt.Bucket_of db name <> None /\ b = boltdb.mkBoltDB db name [].
Proof.
  unfold boltdb.New, bolt.Update, bolt.Tx_Bucket.
  cbn [bolt.tx_db bolt.tx_writable negb].
  destruct (bolt.Bucket_of db name) as [rb|]; [|discriminate].
  intros H. inversion H. split; [discriminate|reflexivity].
Qed.

(** X1.  [New] on an opened file succeeds exactly when the file has a
    top-level bucket of the given name, whatever that bucket holds: the four
    buckets of the layout are not looked for, and none is created.  The
    repository returned holds the file as it was, the name, and an empty
    log. *)
Theorem New_succeeds_iff_root_bucket (db : bolt.DB) (name : string) :
  forall b,
    boltdb.New (ok db) name = ok b
    <-> bolt.Bucket_of db name <> None /\ b = boltdb.mkBoltDB db name [].
Proof.
  intros b. split; [apply New_done|].
  intros [Hroot ->]. unfold boltdb.New, bolt.Update, bolt.Tx_Bucket.
  cbn [bolt.tx_db bolt.tx_writable negb].
  destruct (bolt.Bucket_of db name) as [rb|]; [reflexivity|].
  now contradiction Hroot.
Qed.

(** X2.  On a repository that [New] returned, a per-kind load fails only for
    want of the bucket of its kind, and then with the error
    "Invalid bucket <root>.<kind>": the root bucket that [New] checked is
    found again. *)
Theorem load_after_New (db : bolt.DB) (name : string) (b : boltdb.boltDB)
        (k : kind) (f : Filterable) :
  boltdb.New (ok db) name = ok b ->
  err (load k b f)
  = match bucketNamed b (bucketName k) with
    | Some _ => None
    | None => Some (Errorf ("Invalid bucket " ++ name ++ "." ++ bucketName k))
    end.
Proof.
  intros H. apply New_done in H as [Hroot ->].
  rewrite load_error. unfold bucketNamed. cbn [boltdb.d boltdb.root].
  destruct (bolt.Bucket_of db name) as [rb|]; [|now contradiction Hroot].
  reflexivity.
Qed.

(** The loop adds to the collection it is given. *)
Lemma scan_acc (prefix : bytes.t) (c : bolt.Cursor) :
  forall col, boltdb.scan prefix c col = (col ++ boltdb.scan prefix c [])%list.
Proof.
  induction c as [|[k n] c IH]; intros col; cbn [boltdb.scan].
  - now rewrite app_nil_r.
  - destruct (bytes.HasPrefix k prefix); [|now rewrite app_nil_r].
    destruct (UnmarshalJSON _) as [it|e].
    + rewrite (IH (col ++ [it])%list), (IH ([] ++ [it])%list).
      now rewrite <- !app_assoc.
    + apply IH.
Qed.

Lemma loop_acc (entries : bolt.Bucket) (f : list IRI) :
  forall col,
    fold_left (fun col iri => boltdb.scan iri (bolt.Seek entries iri) col) f col
    = (col ++ fold_left
                (fun col iri => boltdb.scan iri (bolt.Seek entries iri) col) f [])%list.
Proof.
  induction f as [|p f IH]; intros col; cbn [fold_left].
  - now rewrite app_nil_r.
  - rewrite (IH (boltdb.scan p (bolt.Seek entries p) col)),
            (IH (boltdb.scan p (bolt.Seek entries p) [])).
    rewrite (scan_acc p _ col). now rewrite <- app_assoc.
Qed.

Lemma Seek_In (b : bolt.Bucket) (seek : bytes.t) (e : bytes.t * bolt.node) :
  In e (bolt.Seek b seek) -> In e b.
Proof.
  induction b as [|[k n] b IH]; cbn [bolt.Seek]; [tauto|].
  destruct (bytes.ltb k seek); [|tauto]. intros H. right. now apply IH.
Qed.

Lemma scan_sound (prefix : bytes.t) (c : bolt.Cursor) (it : Item) :
  In it (boltdb.scan prefix c []) ->
  exists key n,
    In (key, n) c /\ bytes.HasPrefix key prefix = true
    /\ UnmarshalJSON (bolt.slice (bolt.value_of n)) = ok it.
Proof.
  induction c as [|[k n] c IH]; cbn [boltdb.scan]; [intros []|].
  destruct (bytes.HasPrefix k prefix) eqn:Hp; [|intros []].
  rewrite scan_acc. intros H. apply in_app_or in H as [H|H].
  - exists k, n. split; [now left|]. split; [exact Hp|].
    destruct (UnmarshalJSON _) as [it'|e]; [|destruct H].
    destruct H as [->|[]]. reflexivity.
  - destruct (IH H) as [key [m [Hin Hrest]]]. exists key, m.
    split; [now right|exact Hrest].
Qed.

(** X3.  Whatever the order of the keys in the bucket, a per-kind load
    returns nothing but stored items: each item returned is the decoding of
    a value stored for that kind under a key that starts with one of the
    prefixes of the filter. *)
Theorem load_returns_only_matching_entries
        (k : kind) (b : boltdb.boltDB) (f : Filterable) (it : Item) :
  In it (items (load k b f)) ->
  exists prefix key n,
    In prefix (IRIs f) /\ In (key, n) (stored b k)
    /\ bytes.HasPrefix key prefix = true
    /\ UnmarshalJSON (bolt.slice (bolt.value_of n)) = ok it.
Proof.
  unfold stored.
  destruct (bucketNamed b (bucketName k)) as [entries|] eqn:Hb.
  - rewrite (load_found k b f entries Hb). unfold items. cbn [fst].
    unfold IRIs. induction f as [|p f IH] using rev_ind; [intros []|].
    rewrite fold_left_app. cbn [fold_left]. rewrite scan_acc.
    intros H. apply in_app_or in H as [H|H].
    + destruct (IH H) as [prefix [key [n [Hp Hrest]]]].
      exists prefix, key, n. split; [apply in_or_app; now left|exact Hrest].
    + destruct (scan_sound _ _ _ H) as [key [n [Hin Hrest]]].
      exists p, key, n. split; [apply in_or_app; right; now left|].
      split; [eapply Seek_In; eauto|exact Hrest].
  - destruct (load_missing k b f Hb) as [e ->]. intros [].
Qed.

(** X4.  A load with the filter [f1 ++ f2] returns the items of the load
    with [f1] followed by those of the load with [f2]; the counts add up and
    the error is the same as for either: a filter can be split and the
    answers put together, whatever the order of the keys in the bucket. *)
Theorem load_appended_filters
        (k : kind) (b : boltdb.boltDB) (f1 f2 : Filterable) :
  items (load k b (f1 ++ f2)%list)
  = (items (load k b f1) ++ items (load k b f2))%list
  /\ count (load k b (f1 ++ f2)%list)
     = (count (load k b f1) + count (load k b f2))%N
  /\ err (load k b (f1 ++ f2)%list) = err (load k b f1)
  /\ err (load k b (f1 ++ f2)%list) = err (load k b f2).
Proof.
  destruct (bucketNamed b (bucketName k)) as [entries|] eqn:Hb.
  - rewrite !(load_found k b _ entries Hb). unfold items, count, err, IRIs.
    cbn [fst snd]. rewrite fold_left_app, loop_acc.
    rewrite length_app, Nat2N.inj_add. auto.
  - destruct (load_missing k b (f1 ++ f2)%list Hb) as [e H].
    rewrite !load_error. rewrite H.
    destruct (load_missing k b f1 Hb) as [e1 ->].
    destruct (load_missing k b f2 Hb) as [e2 ->].
    unfold items, count. cbn [fst snd]. auto.
Qed.

Lemma Seek_empty (b : bolt.Bucket) : bolt.Seek b "" = b.
Proof.
  destruct b as [|[k n] b]; [reflexivity|]. cbn [bolt.Seek].
  unfold bytes.ltb, String.ltb. destruct k; reflexivity.
Qed.

Lemma scan_everything (c : bolt.Cursor) :
  boltdb.scan "" c [] = decoded c.
Proof.
  induction c as [|[k n] c IH]; [reflexivity|].
  cbn [boltdb.scan]. rewrite decoded_cons. cbn [snd].
  assert (Hp : bytes.HasPrefix k "" = true) by (destruct k; reflexivity).
  rewrite Hp, scan_acc, IH. reflexivity.
Qed.

(** X5.  The empty prefix matches every key: when the bucket of the kind
    exists, a load with the empty string as its one prefix returns, without
    error, every item of the bucket that decodes, in the order of the
    bucket. *)
Theorem load_empty_prefix_returns_bucket
        (k : kind) (b : boltdb.boltDB) (entries : bolt.Bucket) :
  bucketNamed b (bucketName k) = Some entries ->
  load k b [""] = (decoded entries, N.of_nat (length (decoded entries)), None).
Proof.
  intros Hb. rewrite (load_found k b _ entries Hb). unfold IRIs.
  cbn [fold_left]. now rewrite Seek_empty, scan_everything.
Qed.

End repository_facts.

(* ================================================================== *)
(** * More on collection load *)
(* ================================================================== *)

Section collection_more.

Context {vocabulary : Vocabulary} {codec : jsonld.Codec}.

Import storage query.

Lemma loadFromBucket_count (db : bolt.DB) (root bucket : bytes.t) (f : Filterable) :
  snd (fst (boltdb.loadFromBucket db root bucket f))
  = N.of_nat (length (fst (fst (boltdb.loadFromBucket db root bucket f)))).
Proof.
  unfold boltdb.loadFromBucket. destruct (bolt.View _ _) as [col e]. reflexivity.
Qed.

Lemma loaded_count (b : boltdb.boltDB) (c : option kind) (members : list IRI) :
  snd (loaded b c members) = N.of_nat (length (fst (loaded b c members))).
Proof.
  destruct c as [k|]; [|reflexivity]. unfold loaded.
  rewrite load_unfold. apply loadFromBucket_count.
Qed.

Lemma LoadCollection_missing (b : boltdb.boltDB) (f : Filterable) :
  bucketNamed b boltdb.bucketCollections = None ->
  exists e, boltdb.LoadCollection b f = (None, Some e).
Proof.
  unfold bucketNamed, boltdb.LoadCollection, bolt.View, bolt.Tx_Bucket.
  cbn [bolt.tx_db].
  destruct (bolt.Bucket_of (boltdb.d b) (boltdb.root b)) as [rb|].
  - intros ->. eexists. reflexivity.
  - intros _. eexists. reflexivity.
Qed.

Lemma loop_shaped (b : boltdb.boltDB) (cb : bolt.Bucket) (f l : list IRI) :
  incl l f ->
  forall ret, shaped f ret ->
    shaped f
      (fold_left
         (fun ret iri =>
            match jsonld.Unmarshal (bolt.slice (bolt.Get cb iri)) with
            | ok IRIs => Some (boltdb.materialize b iri IRIs)
            | fail _ => ret
            end) l ret).
Proof.
  induction l as [|iri l IH]; intros Hl ret Hret; cbn [fold_left]; [exact Hret|].
  apply IH; [intros x Hx; apply Hl; now right|].
  destruct (jsonld.Unmarshal _) as [members|e]; [|exact Hret].
  rewrite materialize_classified. cbn.
  split; [apply Hl; now left|]. split; [reflexivity|apply loaded_count].
Qed.

(** X6.  Every call of LoadCollection ends in one of three ways.  With a
    collection: then the error is nil, the collection bears one of the
    identifiers of the filter and the type OrderedCollection, and its total
    is the number of its items.  With neither collection nor error: then
    the collections bucket exists.  With an error and no collection: then
    the root bucket or the collections bucket is missing. *)
Theorem LoadCollection_result_shape (b : boltdb.boltDB) (f : Filterable) :
  match boltdb.LoadCollection b f with
  | (Some col, e) =>
      e = None
      /\ In (col_ID col) (IRIs f)
      /\ col_Type col = OrderedCollectionType
      /\ TotalItems col = N.of_nat (length (OrderedItems col))
  | (None, None) => bucketNamed b boltdb.bucketCollections <> None
  | (None, Some _) => bucketNamed b boltdb.bucketCollections = None
  end.
Proof.
  destruct (bucketNamed b boltdb.bucketCollections) as [cb|] eqn:Hcb.
  - rewrite (LoadCollection_found b f cb Hcb).
    pose proof (loop_shaped b cb (IRIs f) (IRIs f) (incl_refl _) None I) as H.
    destruct (fold_left _ _ _) as [col|]; [|discriminate].
    split; [reflexivity|exact H].
  - destruct (LoadCollection_missing b f Hcb) as [e ->]. reflexivity.
Qed.

Lemma answer_nil (f : Filterable) : answer [] f = [].
Proof.
  unfold answer, IRIs. induction f as [|p f IH]; [reflexivity|exact IH].
Qed.

(** X7.  The collection is materialized by prefix: when the first member
    identifier picks kind [k] and the keys stored for [k] are in order, the
    items of the collection returned are, for each member identifier in the
    order of the member list, the stored items of kind [k] whose key starts
    with that identifier.  A member without stored item is left out, and a
    member that is a prefix of several keys brings them all. *)
Theorem LoadCollection_members_by_prefix
        (b : boltdb.boltDB) (cb : bolt.Bucket) (iri : IRI)
        (members : list IRI) (k : kind) :
  bucketNamed b boltdb.bucketCollections = Some cb ->
  jsonld.Unmarshal (bolt.slice (bolt.Get cb iri)) = ok members ->
  classify_first members = Some k ->
  bolt.sorted (stored b k) ->
  boltdb.LoadCollection b [iri]
  = (Some {| col_ID := iri; col_Type := OrderedCollectionType;
             OrderedItems := answer (stored b k) members;
             TotalItems := N.of_nat (length (answer (stored b k) members)) |},
     None).
Proof.
  intros Hcb Hdec Hk Hs. rewrite (LoadCollection_found b _ cb Hcb).
  unfold IRIs. cbn [fold_left]. rewrite Hdec, materialize_classified, Hk.
  unfold loaded, boltdb.boltFilters, stored in *.
  destruct (bucketNamed b (bucketName k)) as [entries|] eqn:Hb.
  - now rewrite (load_answer k b members entries Hb Hs).
  - destruct (load_missing k b members Hb) as [e ->].
    now rewrite answer_nil.
Qed.

(** X8.  The error of the load of the members does not reach the caller:
    when the bucket of the kind that the first member picks is missing,
    LoadCollection still returns the collection, with no item, a total of
    zero and a nil error. *)
Theorem LoadCollection_hides_load_error
        (b : boltdb.boltDB) (cb : bolt.Bucket) (iri : IRI)
        (members : list IRI) (k : kind) :
  bucketNamed b boltdb.bucketCollections = Some cb ->
  jsonld.Unmarshal (bolt.slice (bolt.Get cb iri)) = ok members ->
  classify_first members = Some k ->
  bucketNamed b (bucketName k) = None ->
  err (load k b members) <> None
  /\ boltdb.LoadCollection b [iri]
     = (Some {| col_ID := iri; col_Type := OrderedCollectionType;
                OrderedItems := []; TotalItems := 0 |},
        None).
Proof.
  intros Hcb Hdec Hk Hb. destruct (load_missing k b members Hb) as [e He].
  split; [rewrite He; discriminate|].
  rewrite (LoadCollection_found b _ cb Hcb).
  unfold IRIs. cbn [fold_left]. rewrite Hdec, materialize_classified, Hk.
  unfold loaded, boltdb.boltFilters. now rewrite He.
Qed.

End collection_more.

(* ================================================================== *)
(** * More on save *)
(* ================================================================== *)

Section save_more.

Context {vocabulary : Vocabulary} {codec : jsonld.Codec}.

Import storage query.

Lemma len_zero (s : bytes.t) : (bytes.len s =? 0)%N = true <-> s = "".
Proof.
  unfold bytes.len. rewrite N.eqb_eq. destruct s; simpl; split;
    try reflexivity; try discriminate.
Qed.

Lemma Bucket_of_None (entries : bolt.Bucket) (key : bytes.t) :
  bolt.Bucket_of entries key = None <->
  match bolt.lookup entries key with Some (bolt.nested _) => False | _ => True end.
Proof.
  unfold bolt.Bucket_of. destruct (bolt.lookup entries key) as [[v|c]|];
    split; try reflexivity; try discriminate; try tauto.
Qed.

(** [Put] in a writable transaction writes exactly what is [accepted]. *)
Lemma Put_accepted (db : bolt.DB) (entries : bolt.Bucket) (key v : bytes.t) :
  accepted entries key v ->
  bolt.Put {| bolt.tx_db := db; bolt.tx_writable := true |} entries key v
  = ok (bolt.insert entries key (bolt.value v)).
Proof.
  intros [Hk [Hks [Hvs Hb]]]. unfold bolt.Put. cbn [bolt.tx_writable negb].
  destruct (bytes.len key =? 0)%N eqn:H0; [apply len_zero in H0; contradiction|].
  apply N.ltb_ge in Hks, Hvs. rewrite Hks, Hvs.
  apply Bucket_of_None in Hb.
  destruct (bolt.lookup entries key) as [[w|c]|]; [reflexivity|destruct Hb|reflexivity].
Qed.

Lemma Put_done (db : bolt.DB) (entries entries' : bolt.Bucket) (key v : bytes.t) :
  bolt.Put {| bolt.tx_db := db; bolt.tx_writable := true |} entries key v
  = ok entries' ->
  accepted entries key v /\ entries' = bolt.insert entries key (bolt.value v).
Proof.
  unfold bolt.Put, accepted. cbn [bolt.tx_writable negb].
  destruct (bytes.len key =? 0)%N eqn:H0; [discriminate|].
  destruct (bolt.MaxKeySize <? bytes.len key)%N eqn:Hks; [discriminate|].
  destruct (bolt.MaxValueSize <? bytes.len v)%N eqn:Hvs; [discriminate|].
  apply N.ltb_ge in Hks, Hvs. rewrite Bucket_of_None.
  assert (Hk : key <> "").
  { intros Hk. apply len_zero in Hk. congruence. }
  destruct (bolt.lookup entries key) as [[w|c]|]; [|discriminate|];
    intros H; inversion H; auto.
Qed.

Lemma save_unfold (k : kind) (b : boltdb.boltDB) (it : Item) :
  save k b it = boltdb.saveAndLog b (bucketName k) it.
Proof. destruct k; reflexivity. Qed.

(** A save once the item is serialized and the two buckets are found. *)
Lemma save_in_bucket (k : kind) (b : boltdb.boltDB) (it : Item)
      (v : bytes.t) (rb entries : bolt.Bucket) :
  jsonld.Marshal it = ok v ->
  bolt.Bucket_of (boltdb.d b) (boltdb.root b) = Some rb ->
  bolt.Bucket_of rb (bucketName k) = Some entries ->
  save k b it
  = match bolt.Put {| bolt.tx_db := boltdb.d b; bolt.tx_writable := true |}
                   entries (GetLink it) v with
    | ok entries' =>
        (boltdb.mkBoltDB
           (bolt.store (boltdb.d b) (boltdb.root b)
              (bolt.nested (bolt.store rb (bucketName k) (bolt.nested entries'))))
           (boltdb.root b)
           (boltdb.logged b ++ [logLine it])%list,
         (it, None))
    | fail e =>
        (b, (it, Some (fmt_Errorf ("could not insert entry: " ++ Error e))))
    end.
Proof.
  intros Hm Hrb Hkb. rewrite save_unfold.
  unfold boltdb.saveAndLog, boltdb.save, bolt.Update, bolt.Tx_Bucket.
  rewrite Hm. cbn [bolt.tx_db bolt.tx_writable negb]. rewrite Hrb, Hkb.
  destruct (bolt.Put _ _ _ _); [reflexivity|]. destruct b; reflexivity.
Qed.

(** What a save without error has done, in full. *)
Lemma save_written (k : kind) (b b' : boltdb.boltDB) (it it' : Item) :
  save k b it = (b', (it', None)) ->
  exists v rb entries,
    jsonld.Marshal it = ok v
    /\ bolt.Bucket_of (boltdb.d b) (boltdb.root b) = Some rb
    /\ bolt.Bucket_of rb (bucketName k) = Some entries
    /\ accepted entries (GetLink it) v
    /\ it' = it
    /\ b' = boltdb.mkBoltDB
              (bolt.store (boltdb.d b) (boltdb.root b)
                 (bolt.nested
                    (bolt.store rb (bucketName k)
                       (bolt.nested
                          (bolt.insert entries (GetLink it) (bolt.value v))))))
              (boltdb.root b)
              (boltdb.logged b ++ [logLine it])%list.
Proof.
  intros H. pose proof H as H'.
  destruct (save_done k b b' it it' H) as [v [entries [Hm [Hb [_ ->]]]]].
  unfold bucketNamed in Hb.
  destruct (bolt.Bucket_of (boltdb.d b) (boltdb.root b)) as [rb|] eqn:Hrb;
    [|discriminate].
  rewrite (save_in_bucket k b it v rb entries Hm Hrb Hb) in H'.
  destruct (bolt.Put _ _ _ _) as [entries'|e] eqn:HP; [|discriminate].
  apply Put_done in HP as [Hacc ->]. inversion H'; subst.
  exists v, rb, entries. auto 10.
Qed.

(** X9.  A save that returns an error, whichever it is, returns the item it
    was given and leaves the repository as it was: the file is not changed
    and nothing is logged. *)
Theorem save_error_leaves_repository
        (k : kind) (b b' : boltdb.boltDB) (it it' : Item) (e : error) :
  save k b it = (b', (it', Some e)) -> b' = b /\ it' = it.
Proof.
  rewrite save_unfold.
  unfold boltdb.saveAndLog, boltdb.save, bolt.Update, bolt.Tx_Bucket.
  cbn [bolt.tx_db bolt.tx_writable negb].
  destruct (jsonld.Marshal it) as [v|em];
    [destruct (bolt.Bucket_of (boltdb.d b) (boltdb.root b)) as [rb|];
     [destruct (bolt.Bucket_of rb (bucketName k)) as [entries|];
      [destruct (bolt.Put _ _ _ _)|]|]|];
    intros H; inversion H; subst; destruct b; auto.
Qed.

(** X10.  A save succeeds exactly when the codec serializes the item, the
    root bucket and the bucket of the kind exist, the identifier of the item
    is not empty, not longer than 32768 bytes and not the name of a nested
    bucket, and the serialization is not longer than 2^31 - 2 bytes. *)
Theorem save_succeeds_iff (k : kind) (b : boltdb.boltDB) (it : Item) :
  snd (snd (save k b it)) = None
  <-> exists v entries,
        jsonld.Marshal it = ok v
        /\ bucketNamed b (bucketName k) = Some entries
        /\ accepted entries (GetLink it) v.
Proof.
  split.
  - destruct (save k b it) as [b' [it' e]] eqn:H. cbn [snd]. intros ->.
    destruct (save_written k b b' it it' H)
      as [v [rb [entries [Hm [Hrb [Hkb [Hacc _]]]]]]].
    exists v, entries. unfold bucketNamed. rewrite Hrb. auto.
  - intros [v [entries [Hm [Hb Hacc]]]]. unfold bucketNamed in Hb.
    destruct (bolt.Bucket_of (boltdb.d b) (boltdb.root b)) as [rb|] eqn:Hrb;
      [|discriminate].
    rewrite (save_in_bucket k b it v rb entries Hm Hrb Hb).
    now rewrite (Put_accepted _ _ _ _ Hacc).
Qed.

(** X11.  An item without identifier cannot be saved: when it serializes and
    the buckets exist, the save returns the error
    "could not insert entry: key required" and changes nothing. *)
Theorem save_empty_identifier_rejected
        (k : kind) (b : boltdb.boltDB) (it : Item)
        (v : bytes.t) (entries : bolt.Bucket) :
  GetLink it = "" ->
  jsonld.Marshal it = ok v ->
  bucketNamed b (bucketName k) = Some entries ->
  save k b it
  = (b, (it, Some (fmt_Errorf "could not insert entry: key required"))).
Proof.
  intros Hid Hm Hb. unfold bucketNamed in Hb.
  destruct (bolt.Bucket_of (boltdb.d b) (boltdb.root b)) as [rb|] eqn:Hrb;
    [|discriminate].
  rewrite (save_in_bucket k b it v rb entries Hm Hrb Hb), Hid. reflexivity.
Qed.

Lemma lookup_insert (b : bolt.Bucket) (key : bytes.t) (n : bolt.node) :
  bolt.lookup (bolt.insert b key n) key = Some n.
Proof.
  induction b as [|[k m] b IH]; cbn [bolt.insert bolt.lookup].
  - now rewrite String.eqb_refl.
  - destruct (String.compare key k) eqn:Hc; cbn [bolt.lookup].
    + now rewrite String.eqb_refl.
    + now rewrite String.eqb_refl.
    + destruct (String.eqb k key) eqn:Hk; [|exact IH].
      apply String.eqb_eq in Hk. subst k. rewrite compare_refl in Hc.
      discriminate.
Qed.

Lemma lookup_insert_other (b : bolt.Bucket) (key key' : bytes.t) (n : bolt.node) :
  key' <> key ->
  bolt.lookup (bolt.insert b key n) key' = bolt.lookup b key'.
Proof.
  intros Hne. assert (Hk : String.eqb key key' = false)
    by (apply String.eqb_neq; congruence).
  induction b as [|[k m] b IH]; cbn [bolt.insert bolt.lookup].
  - now rewrite Hk.
  - destruct (String.compare key k) eqn:Hc; cbn [bolt.lookup].
    + apply String.compare_eq_iff in Hc. subst k. now rewrite Hk.
    + now rewrite Hk.
    + now rewrite IH.
Qed.

Lemma insert_insert (b : bolt.Bucket) (key : bytes.t) (n1 n2 : bolt.node) :
  bolt.insert (bolt.insert b key n1) key n2 = bolt.insert b key n2.
Proof.
  induction b as [|[k m] b IH]; cbn [bolt.insert].
  - now rewrite compare_refl.
  - destruct (String.compare key k) eqn:Hc; cbn [bolt.insert].
    + now rewrite compare_refl.
    + now rewrite compare_refl.
    + now rewrite Hc, IH.
Qed.

Lemma store_store (b : bolt.Bucket) (name : bytes.t) (n1 n2 : bolt.node) :
  bolt.store (bolt.store b name n1) name n2 = bolt.store b name n2.
Proof.
  induction b as [|[k m] b IH]; cbn [bolt.store]; [reflexivity|].
  destruct (String.eqb k name) eqn:Hk; cbn [bolt.store]; rewrite Hk.
  - reflexivity.
  - now rewrite IH.
Qed.

Lemma Bucket_of_store_other (b : bolt.Bucket) (name name' : bytes.t) (n : bolt.node) :
  name' <> name ->
  bolt.Bucket_of (bolt.store b name n) name' = bolt.Bucket_of b name'.
Proof.
  intros Hne. unfold bolt.Bucket_of.
  induction b as [|[k m] b IH]; cbn [bolt.store bolt.lookup]; [reflexivity|].
  destruct (String.eqb k name) eqn:Hk; cbn [bolt.lookup].
  - apply String.eqb_eq in Hk. subst k.
    assert (H : String.eqb name name' = false)
      by (apply String.eqb_neq; congruence).
    now rewrite H.
  - destruct (String.eqb k name'); [reflexivity|exact IH].
Qed.

Lemma bucketName_inj (k k' : kind) : bucketName k' = bucketName k -> k' = k.
Proof. destruct k, k'; intros H; try reflexivity; cbv in H; discriminate H. Qed.

Lemma matches_insert_other (b : bolt.Bucket) (key prefix : bytes.t) (n : bolt.node) :
  bytes.HasPrefix key prefix = false ->
  matches (bolt.insert b key n) prefix = matches b prefix.
Proof.
  intros Hp. induction b as [|[k m] b IH]; cbn [bolt.insert].
  - now rewrite matches_cons, Hp.
  - destruct (String.compare key k) eqn:Hc.
    + apply String.compare_eq_iff in Hc. subst k.
      now rewrite !matches_cons, Hp.
    + now rewrite matches_cons, Hp.
    + now rewrite !matches_cons, IH.
Qed.

(** The bucket of the kind after a save without error. *)
Lemma stored_after_save (k : kind) (b b' : boltdb.boltDB) (it it' : Item) :
  save k b it = (b', (it', None)) ->
  exists v,
    jsonld.Marshal it = ok v
    /\ accepted (stored b k) (GetLink it) v
    /\ bucketNamed b (bucketName k) = Some (stored b k)
    /\ bucketNamed b' (bucketName k)
       = Some (bolt.insert (stored b k) (GetLink it) (bolt.value v))
    /\ stored b' k = bolt.insert (stored b k) (GetLink it) (bolt.value v).
Proof.
  intros H.
  destruct (save_written k b b' it it' H)
    as [v [rb [entries [Hm [Hrb [Hkb [Hacc [_ ->]]]]]]]].
  exists v. unfold stored, bucketNamed. cbn [boltdb.d boltdb.root].
  rewrite Hrb, Hkb, (Bucket_of_store _ _ _ _ Hrb), (Bucket_of_store _ _ _ _ Hkb).
  auto.
Qed.

(** X12.  After a save without error, the bucket of the kind holds the
    serialization of the item under the identifier of the item, and under
    every other key what it held before. *)
Theorem save_then_Get (k : kind) (b b' : boltdb.boltDB) (it it' : Item) :
  save k b it = (b', (it', None)) ->
  (exists v, jsonld.Marshal it = ok v
             /\ bolt.Get (stored b' k) (GetLink it) = Some v)
  /\ forall key, key <> GetLink it ->
       bolt.Get (stored b' k) key = bolt.Get (stored b k) key.
Proof.
  intros H. destruct (stored_after_save k b b' it it' H) as [v [Hm [_ [_ [_ ->]]]]].
  unfold bolt.Get. split.
  - exists v. now rewrite lookup_insert.
  - intros key Hne. now rewrite lookup_insert_other.
Qed.

(** X13.  The last write wins: after two saves without error of items with
    the same identifier, the file is the one that the second save alone
    would have left, and the bucket holds the serialization of the second
    item under that identifier. *)
Theorem save_overwrites
        (k : kind) (b b1 b2 : boltdb.boltDB) (it1 it2 i1 i2 : Item) :
  save k b it1 = (b1, (i1, None)) ->
  save k b1 it2 = (b2, (i2, None)) ->
  GetLink it1 = GetLink it2 ->
  boltdb.d b2 = boltdb.d (fst (save k b it2))
  /\ exists v2, jsonld.Marshal it2 = ok v2
                /\ bolt.Get (stored b2 k) (GetLink it2) = Some v2.
Proof.
  intros H1 H2 Hid.
  destruct (save_written k b b1 it1 i1 H1)
    as [v1 [rb [entries [Hm1 [Hrb [Hkb [Hacc1 [_ Hb1]]]]]]]].
  destruct (save_written k b1 b2 it2 i2 H2)
    as [v2 [rb1 [entries1 [Hm2 [Hrb1 [Hkb1 [Hacc2 [_ Hb2]]]]]]]].
  destruct (stored_after_save k b1 b2 it2 i2 H2) as [v2' [Hm2' [_ [_ [_ Hst]]]]].
  rewrite Hm2 in Hm2'. inversion Hm2'; subst v2'. clear Hm2'.
  subst b1. cbn [boltdb.d boltdb.root] in *.
  rewrite (Bucket_of_store _ _ _ _ Hrb) in Hrb1. inversion Hrb1; subst rb1.
  rewrite (Bucket_of_store _ _ _ _ Hkb) in Hkb1. inversion Hkb1; subst entries1.
  rewrite Hid in *.
  assert (Hacc : accepted entries (GetLink it2) v2).
  { destruct Hacc1 as [? [? [_ ?]]]. destruct Hacc2 as [_ [_ [? _]]].
    repeat split; assumption. }
  split.
  - rewrite (save_in_bucket k _ it2 v2 rb entries Hm2 Hrb Hkb),
            (Put_accepted _ _ _ _ Hacc).
    subst b2. cbn [fst boltdb.d].
    now rewrite !store_store, insert_insert.
  - exists v2. split; [exact Hm2|]. rewrite Hst. unfold bolt.Get.
    now rewrite lookup_insert.
Qed.

Lemma loadFromBucket_same_bucket
      (db1 db2 : bolt.DB) (root name : bytes.t) (rb1 rb2 : bolt.Bucket)
      (f : Filterable) :
  bolt.Bucket_of db1 root = Some rb1 ->
  bolt.Bucket_of db2 root = Some rb2 ->
  bolt.Bucket_of rb1 name = bolt.Bucket_of rb2 name ->
  boltdb.loadFromBucket db1 root name f = boltdb.loadFromBucket db2 root name f.
Proof.
  intros H1 H2 H. unfold boltdb.loadFromBucket, bolt.View, bolt.Tx_Bucket.
  cbn [bolt.tx_db]. now rewrite H1, H2, H.
Qed.

(** X14.  A save without error touches the bucket of its own kind only: the
    entries stored for the two other kinds and the collections bucket are
    what they were, and every load of another kind returns what it returned
    before. *)
Theorem save_keeps_other_kinds
        (k k' : kind) (b b' : boltdb.boltDB) (it it' : Item) :
  save k b it = (b', (it', None)) ->
  k' <> k ->
  stored b' k' = stored b k'
  /\ bucketNamed b' boltdb.bucketCollections
     = bucketNamed b boltdb.bucketCollections
  /\ forall f, load k' b' f = load k' b f.
Proof.
  intros H Hk.
  destruct (save_written k b b' it it' H)
    as [v [rb [entries [Hm [Hrb [Hkb [Hacc [_ ->]]]]]]]].
  assert (Hname : bucketName k' <> bucketName k)
    by (intros E; apply Hk; now apply bucketName_inj).
  assert (Hcol : boltdb.bucketCollections <> bucketName k)
    by (destruct k; discriminate).
  unfold stored, bucketNamed. cbn [boltdb.d boltdb.root].
  rewrite Hrb, (Bucket_of_store _ _ _ _ Hrb).
  rewrite !Bucket_of_store_other by assumption.
  split; [reflexivity|]. split; [reflexivity|].
  intros f. rewrite !load_unfold. cbn [boltdb.d boltdb.root].
  eapply loadFromBucket_same_bucket;
    [eapply Bucket_of_store; eauto|eauto|now apply Bucket_of_store_other].
Qed.

(** X15.  A save without error does not change the answer of a load of its
    kind whose prefixes are not prefixes of the saved identifier (the keys
    of the bucket being in order). *)
Theorem save_keeps_unrelated_loads
        (k : kind) (b b' : boltdb.boltDB) (it it' : Item) (f : Filterable) :
  bolt.sorted (stored b k) ->
  save k b it = (b', (it', None)) ->
  (forall prefix, In prefix (IRIs f) ->
                  bytes.HasPrefix (GetLink it) prefix = false) ->
  load k b' f = load k b f.
Proof.
  intros Hs H Hf.
  destruct (stored_after_save k b b' it it' H) as [v [_ [_ [Hb [Hb' _]]]]].
  rewrite (load_answer k b' f _ Hb' (insert_sorted _ _ _ Hs)),
          (load_answer k b f _ Hb Hs).
  assert (Heq : answer (bolt.insert (stored b k) (GetLink it) (bolt.value v)) f
                = answer (stored b k) f).
  { unfold answer. induction (IRIs f) as [|p l IH]; [reflexivity|].
    cbn [flat_map]. rewrite IH.
    - rewrite matches_insert_other; [reflexivity|]. apply Hf. now left.
    - intros q Hq. apply Hf. now right. }
  now rewrite Heq.
Qed.

(** X16.  A save without error returns the item it was given, keeps the
    name of the root bucket and hands one line to [logFn], after those
    logged before: "Added new activity: " followed by the identifier of the
    item, for an actor and an object as for an activity. *)
Theorem save_logs_identifier
        (k : kind) (b b' : boltdb.boltDB) (it it' : Item) :
  save k b it = (b', (it', None)) ->
  it' = it
  /\ boltdb.root b' = boltdb.root b
  /\ boltdb.logged b'
     = (boltdb.logged b ++ [("Added new activity: " ++ GetLink it)%string])%list.
Proof.
  intros H.
  destruct (save_written k b b' it it' H)
    as [v [rb [entries [_ [_ [_ [_ [-> ->]]]]]]]].
  auto.
Qed.

End save_more.

(* ================================================================== *)
(** * More on identifier generation *)
(* ================================================================== *)

Section identifier_more.

Context {vocabulary : Vocabulary}.
Variable ToLower : string -> string.

Import query.

Lemma append_inj (s a b : string) : (s ++ a = s ++ b)%string -> a = b.
Proof.
  induction s as [|c s IH]; simpl; intros H; [exact H|].
  inversion H. now apply IH.
Qed.

(** X17.  For an item whose type tag is an actor or object type and not an
    activity type, and whose conversion to the type that its tag selects
    succeeds, GenerateID returns the lower-cased parent, a slash and the
    token, with a nil error, and assigns that identifier to the converted
    object and to nothing else.  The token is not lower-cased. *)
Theorem GenerateID_object_minted
        (uuid : string) (it : Item) (partOf : IRI) (by_ : Item) (p : Item) :
  Contains ActivityTypes (GetType it) = false ->
  Contains ActorTypes (GetType it) || Contains ObjectTypes (GetType it) = true ->
  boltdb.conversion (GetType it) it = (Some p, None) ->
  boltdb.GenerateID ToLower uuid it partOf by_
  = ([setID p (ToLower partOf ++ "/" ++ uuid)],
     boltdb.Return (ToLower partOf ++ "/" ++ uuid) None).
Proof.
  intros Hact Hty Hconv. unfold boltdb.GenerateID.
  rewrite Hact, Hty, Hconv. reflexivity.
Qed.

(** X18.  For an item whose type tag is neither an activity type nor an
    actor type nor an object type, GenerateID returns the identifier the
    item has, with a nil error; it converts nothing and assigns nothing. *)
Theorem GenerateID_other_type_keeps_identifier
        (uuid : string) (it : Item) (partOf : IRI) (by_ : Item) :
  Contains ActivityTypes (GetType it) = false ->
  Contains ActorTypes (GetType it) = false ->
  Contains ObjectTypes (GetType it) = false ->
  boltdb.GenerateID ToLower uuid it partOf by_
  = ([], boltdb.Return (GetID it) None).
Proof.
  intros Hact Hactor Hobj. unfold boltdb.GenerateID.
  rewrite Hact, Hactor, Hobj. reflexivity.
Qed.

(** X19.  Two calls that differ in the token only return different
    identifiers, for an actor or object whose conversion succeeds: the
    identifier is as unique as the token. *)
Theorem GenerateID_distinct_tokens
        (uuid1 uuid2 : string) (it : Item) (partOf : IRI) (by_ : Item) (p : Item) :
  Contains ActivityTypes (GetType it) = false ->
  Contains ActorTypes (GetType it) || Contains ObjectTypes (GetType it) = true ->
  boltdb.conversion (GetType it) it = (Some p, None) ->
  uuid1 <> uuid2 ->
  snd (boltdb.GenerateID ToLower uuid1 it partOf by_)
  <> snd (boltdb.GenerateID ToLower uuid2 it partOf by_).
Proof.
  intros Hact Hty Hconv Hne. unfold boltdb.GenerateID.
  rewrite Hact, Hty, Hconv. cbn. intros H. inversion H as [Heq].
  apply append_inj in Heq. inversion Heq. contradiction.
Qed.

End identifier_more.

(* ================================================================== *)
(** * The further properties on concrete stores *)
(* ================================================================== *)

Module more_examples.
Import storage query sample.

Ltac in_order := vm_compute; repeat constructor.

(** X2 on the file without [actors] bucket, which [New] accepts. *)
Lemma load_after_New_witness :
  err (load actors without_actors ["http://x/"])
  = Some (Errorf "Invalid bucket ap.actors")
  /\ err (load objects without_actors ["http://x/"]) = None.
Proof.
  split.
  - exact (load_after_New file_without_actors "ap" without_actors
             actors ["http://x/"] eq_refl).
  - exact (load_after_New file_without_actors "ap" without_actors
             objects ["http://x/"] eq_refl).
Defined.

(** X3 on [note10], returned for the prefix [http://x/objects/]. *)
Lemma load_returns_only_matching_entries_witness :
  exists prefix key n,
    In prefix ["http://x/actors/"; "http://x/objects/"]
    /\ In (key, n) (stored repo objects)
    /\ bytes.HasPrefix key prefix = true
    /\ UnmarshalJSON (bolt.slice (bolt.value_of n)) = ok note10.
Proof.
  apply (load_returns_only_matching_entries
           objects repo ["http://x/actors/"; "http://x/objects/"] note10).
  vm_compute. left. reflexivity.
Defined.

(** X5 on the activities of the sample store. *)
Lemma load_empty_prefix_returns_bucket_witness :
  load activities repo [""] = ([create1; review], 2%N, None).
Proof.
  exact (load_empty_prefix_returns_bucket
           activities repo [entry create1; entry review] eq_refl).
Defined.

(** X7 on [inbox], whose first member is an actor: the second member, an
    activity, is looked up among the actors and brings nothing. *)
Lemma LoadCollection_members_by_prefix_witness :
  boltdb.LoadCollection repo ["http://x/inbox"]
  = (Some {| col_ID := "http://x/inbox"; col_Type := "OrderedCollection";
             OrderedItems := [alice]; TotalItems := 1 |},
     None).
Proof.
  assert (Hs : bolt.sorted (stored repo actors)) by in_order.
  exact (LoadCollection_members_by_prefix
           repo
           [("http://x/broken", bolt.value "not a list");
            ("http://x/inbox",
             bolt.value "[http://x/actors/alice,http://x/activities/1]");
            ("http://x/outbox", bolt.value "[http://x/activities/objects/1]")]
           "http://x/inbox"
           ["http://x/actors/alice"; "http://x/activities/1"]
           actors eq_refl eq_refl eq_refl Hs).
Defined.

(** X8 on a file with a collection of actors and no [actors] bucket. *)
Lemma LoadCollection_hides_load_error_witness :
  err (load actors followers_only ["http://x/actors/alice"]) <> None
  /\ boltdb.LoadCollection followers_only ["http://x/followers"]
     = (Some {| col_ID := "http://x/followers"; col_Type := "OrderedCollection";
                OrderedItems := []; TotalItems := 0 |},
        None).
Proof.
  exact (LoadCollection_hides_load_error
           followers_only
           [("http://x/followers", bolt.value "[http://x/actors/alice]")]
           "http://x/followers" ["http://x/actors/alice"] actors
           eq_refl eq_refl eq_refl eq_refl).
Defined.

(** X9 on an item without identifier, which [Put] refuses. *)
Lemma save_error_leaves_repository_witness :
  snd (snd (save objects repo anonymous))
  = Some (fmt_Errorf "could not insert entry: key required")
  /\ fst (save objects repo anonymous) = repo
  /\ fst (snd (save objects repo anonymous)) = anonymous.
Proof.
  split; [reflexivity|].
  exact (save_error_leaves_repository
           objects repo (fst (save objects repo anonymous)) anonymous
           (fst (snd (save objects repo anonymous)))
           (fmt_Errorf "could not insert entry: key required") eq_refl).
Defined.

(** X11 on the same item. *)
Lemma save_empty_identifier_rejected_witness :
  save actors repo anonymous
  = (repo, (anonymous,
            Some (fmt_Errorf "could not insert entry: key required"))).
Proof.
  exact (save_empty_identifier_rejected
           actors repo anonymous "object||Note|draft" [entry alice]
           eq_refl eq_refl eq_refl).
Defined.

(** X12 on [note1] saved to the sample store, which holds [note10]. *)
Lemma save_then_Get_witness :
  (exists v, jsonld.Marshal note1 = ok v
             /\ bolt.Get (stored repo_with_note1 objects) (GetLink note1) = Some v)
  /\ forall key, key <> GetLink note1 ->
       bolt.Get (stored repo_with_note1 objects) key
       = bolt.Get (stored repo objects) key.
Proof.
  exact (save_then_Get objects repo repo_with_note1 note1 note1 eq_refl).
Defined.

(** X13 on [note1] saved and then saved again, edited. *)
Lemma save_overwrites_witness :
  boltdb.d (fst (save objects repo_with_note1 note1_edited))
  = boltdb.d (fst (save objects repo note1_edited))
  /\ exists v2, jsonld.Marshal note1_edited = ok v2
                /\ bolt.Get (stored (fst (save objects repo_with_note1 note1_edited))
                                    objects)
                            (GetLink note1_edited) = Some v2.
Proof.
  exact (save_overwrites
           objects repo repo_with_note1
           (fst (save objects repo_with_note1 note1_edited))
           note1 note1_edited note1 note1_edited eq_refl eq_refl eq_refl).
Defined.

(** X14 on [note1] saved as an object: the actors are as before. *)
Lemma save_keeps_other_kinds_witness :
  stored repo_with_note1 actors = stored repo actors
  /\ bucketNamed repo_with_note1 boltdb.bucketCollections
     = bucketNamed repo boltdb.bucketCollections
  /\ forall f, load actors repo_with_note1 f = load actors repo f.
Proof.
  refine (save_keeps_other_kinds
            objects actors repo repo_with_note1 note1 note1 eq_refl _).
  discriminate.
Defined.

(** X15 on [note1] saved and a filter that does not reach it. *)
Lemma save_keeps_unrelated_loads_witness :
  load objects repo_with_note1 ["http://x/objects/10"; "http://y/"]
  = load objects repo ["http://x/objects/10"; "http://y/"].
Proof.
  assert (Hs : bolt.sorted (stored repo objects)) by in_order.
  refine (save_keeps_unrelated_loads
            objects repo repo_with_note1 note1 note1
            ["http://x/objects/10"; "http://y/"] Hs eq_refl _).
  intros prefix [<-|[<-|[]]]; reflexivity.
Defined.

(** X16 on [alice] saved as an actor. *)
Lemma save_logs_identifier_witness :
  boltdb.root (fst (save actors repo alice)) = "ap"
  /\ boltdb.logged (fst (save actors repo alice))
     = ["Added new activity: http://x/actors/alice"].
Proof.
  exact (proj2 (save_logs_identifier
                  actors repo (fst (save actors repo alice)) alice alice eq_refl)).
Defined.

(** X17 on a note: the parent is lower-cased, the token is not. *)
Lemma GenerateID_object_minted_witness :
  boltdb.GenerateID toLower "F47AC10B" note1 "http://Example.com/Objects" alice
  = ([setID note1 "http://example.com/objects/F47AC10B"],
     boltdb.Return "http://example.com/objects/F47AC10B" None).
Proof.
  exact (GenerateID_object_minted
           toLower "F47AC10B" note1 "http://Example.com/Objects" alice note1
           eq_refl eq_refl eq_refl).
Defined.

(** X18 on a collection. *)
Lemma GenerateID_other_type_keeps_identifier_witness :
  boltdb.GenerateID toLower token inbox "http://example.com/objects" alice
  = ([], boltdb.Return "http://x/inbox" None).
Proof.
  exact (GenerateID_other_type_keeps_identifier
           toLower token inbox "http://example.com/objects" alice
           eq_refl eq_refl eq_refl).
Defined.

(** X19 on two tokens for the same note. *)
Lemma GenerateID_distinct_tokens_witness :
  "f47ac10b" <> "0e02b2c3"
  /\ snd (boltdb.GenerateID toLower "f47ac10b" note1 "http://example.com/objects" alice)
     <> snd (boltdb.GenerateID toLower "0e02b2c3" note1 "http://example.com/objects" alice).
Proof.
  assert (Hne : "f47ac10b" <> "0e02b2c3") by discriminate.
  split; [exact Hne|].
  exact (GenerateID_distinct_tokens
           toLower "f47ac10b" "0e02b2c3" note1 "http://example.com/objects"
           alice note1 eq_refl eq_refl eq_refl Hne).
Defined.

(** X21 on an item tagged [Place] and held as a plain object. *)
Lemma GenerateID_object_conversion_error_witness :
  boltdb.GenerateID toLower token mistagged_place "http://example.com/objects" alice
  = ([], boltdb.Return "http://x/objects/here"
                       (Some (New "unable to convert place"))).
Proof.
  exact (GenerateID_object_conversion_error
           toLower token mistagged_place "http://example.com/objects" alice
           None (New "unable to convert place") eq_refl eq_refl eq_refl).
Defined.

End more_examples.
